(** * GpsLogger control core: calendar edge detectors, WiFi and NTP services

    A shallow embedding of [SchedulerService.h], [WiFiService.h],
    [NTPService.h], [sioService.h] and of [readln] and [readKey] of
    [FileSystemService.h].  The C++ globals of each header become the fields of a
    record, every function of a header becomes a function on that record, and
    the calls into the Arduino libraries ([WiFi], [timeClient], [rtc],
    [Serial]) are answered by oracles stored in the record and written down in
    a trace, in program order. *)

From Stdlib Require Import ZArith List Bool String Lia.
Import ListNotations.
Open Scope Z_scope.

(** ** Machine integers

    Every counter of the three headers is a C++ [int] (32 bits on the ESP32).
    [++x] is modelled with two's-complement wrap-around. *)
Module Int.

Definition INT_MIN : Z := -2147483648.

Definition INT_MAX : Z := 2147483647.

Definition wrap (z : Z) : Z := (z + 2147483648) mod 4294967296 - 2147483648.

Definition incr (z : Z) : Z := wrap (z + 1).

End Int.

(** ** A state monad for the code that threads its globals through many
    statements *)
Definition M (S A : Type) : Type := S -> A * S.

Definition ret {S A : Type} (a : A) : M S A := fun s => (a, s).

Definition bind {S A B : Type} (m : M S A) (k : A -> M S B) : M S B :=
  fun s => let (a, s') := m s in k a s'.

Definition gets {S A : Type} (f : S -> A) : M S A := fun s => (f s, s).

Definition modify {S : Type} (f : S -> S) : M S unit := fun s => (tt, f s).

Definition when {S : Type} (b : bool) (m : M S unit) : M S unit :=
  if b then m else ret tt.

Definition exec {S A : Type} (m : M S A) (s : S) : S := snd (m s).

Declare Scope prog_scope.
Delimit Scope prog_scope with prog.
Notation "x <- c1 ;; c2" := (bind c1 (fun x => c2))
  (at level 61, c1 at next level, right associativity) : prog_scope.
Notation "c1 ;; c2" := (bind c1 (fun _ => c2))
  (at level 61, right associativity) : prog_scope.

(** ** SchedulerService.h *)
Module Scheduler.

(** What the real-time clock [rtc] answers at one instant.  The clock class is
    not part of the repository; the source calls [rtc.getHour(true)] in
    [hourDetector] and [rtc.getHour()] in [schedulerInit], so the answer of
    each call form is a field of its own. *)
Record Clock : Type := mkClock {
  getSecond : Z;
  getMinute : Z;
  getHour : bool -> Z;
  getHour_noarg : Z;
  getDay : Z
}.

(** The four globals [lastDay], [lastHr], [lastMin], [lastSec]. *)
Record Baseline : Type := mkBaseline {
  lastDay : Z;
  lastHr : Z;
  lastMin : Z;
  lastSec : Z
}.

(** The initialisers of the four globals. *)
Definition unset : Z := -1.

Definition initial : Baseline :=
  {| lastDay := unset; lastHr := unset; lastMin := unset; lastSec := unset |}.

Definition set_lastDay (v : Z) (s : Baseline) : Baseline :=
  {| lastDay := v; lastHr := lastHr s; lastMin := lastMin s; lastSec := lastSec s |}.

Definition set_lastHr (v : Z) (s : Baseline) : Baseline :=
  {| lastDay := lastDay s; lastHr := v; lastMin := lastMin s; lastSec := lastSec s |}.

Definition set_lastMin (v : Z) (s : Baseline) : Baseline :=
  {| lastDay := lastDay s; lastHr := lastHr s; lastMin := v; lastSec := lastSec s |}.

Definition set_lastSec (v : Z) (s : Baseline) : Baseline :=
  {| lastDay := lastDay s; lastHr := lastHr s; lastMin := lastMin s; lastSec := v |}.

(** [int dayDetector()]: the returned [int] is only ever [false] or [true]. *)
Definition dayDetector (rtc : Clock) (s : Baseline) : bool * Baseline :=
  let day := getDay rtc in
  if day =? lastDay s then (false, s)
  else if lastDay s =? -1 then (false, set_lastDay day s)
  else (true, set_lastDay day s).

(** [int hourDetector()] *)
Definition hourDetector (rtc : Clock) (s : Baseline) : bool * Baseline :=
  let hr := getHour rtc true in
  if hr =? lastHr s then (false, s)
  else (true, set_lastHr hr s).

(** [int minuteDetector()] *)
Definition minuteDetector (rtc : Clock) (s : Baseline) : bool * Baseline :=
  let zmin := getMinute rtc in
  if zmin =? lastMin s then (false, s)
  else (true, set_lastMin zmin s).

(** [int secondDetector()] *)
Definition secondDetector (rtc : Clock) (s : Baseline) : bool * Baseline :=
  let sec := getSecond rtc in
  if sec =? lastSec s then (false, s)
  else (true, set_lastSec sec s).

(** [void schedulerInit()] *)
Definition schedulerInit (rtc : Clock) (s : Baseline) : Baseline :=
  let s := set_lastSec (getSecond rtc) s in
  let s := set_lastMin (getMinute rtc) s in
  let s := set_lastHr (getHour_noarg rtc) s in
  set_lastDay (getDay rtc) s.

(** A detector together with the clock field it reads and the global it keeps. *)
Record Detector : Type := mkDetector {
  detect : Clock -> Baseline -> bool * Baseline;
  field : Clock -> Z;
  base : Baseline -> Z;
  rebase : Z -> Baseline -> Baseline
}.

Definition second_d : Detector := mkDetector secondDetector getSecond lastSec set_lastSec.
Definition minute_d : Detector := mkDetector minuteDetector getMinute lastMin set_lastMin.
Definition hour_d : Detector :=
  mkDetector hourDetector (fun rtc => getHour rtc true) lastHr set_lastHr.
Definition day_d : Detector := mkDetector dayDetector getDay lastDay set_lastDay.

Definition detectors : list Detector := [second_d; minute_d; hour_d; day_d].

(** Successive calls of one detector; [rtcs] holds what the clock answers at
    each call.  Returns the results in call order and the final globals. *)
Fixpoint calls (d : Detector) (rtcs : list Clock) (s : Baseline) : list bool * Baseline :=
  match rtcs with
  | [] => ([], s)
  | rtc :: rest =>
      let (r, s') := detect d rtc s in
      let (rs, s'') := calls d rest s' in
      (r :: rs, s'')
  end.

(** The calls of a sequence that follow a change of the observed field:
    [changes prev vs] marks the positions of [vs] whose value differs from
    the value before it ([prev] before the first). *)
Fixpoint changes (prev : Z) (vs : list Z) : list bool :=
  match vs with
  | [] => []
  | v :: rest => negb (v =? prev) :: changes v rest
  end.

End Scheduler.

(** ** WiFiService.h *)
Module WiFi.

Definition WIFISTATE_DISCONNECTED : Z := 0.
Definition WIFISTATE_CONNECTING : Z := 1.
Definition WIFISTATE_CONNECTED : Z := 2.
Definition WIFISTATE_DISCOWAIT : Z := 3.
Definition WIFISTATE_ERRORTIMEOUT : Z := 4.

Definition WIFIWAIT_MAX : Z := 30.
Definition WIFIRECONNECT_MAX : Z := 60.
Definition WIFIDISCOWAIT_MAX : Z := 10.

(** The calls the header makes into the network layer and the serial log. *)
Inductive Event : Type :=
| WiFi_disconnect
| WiFi_mode_STA
| WiFi_begin (ssid pwd : string)
| WIFILOG (msg : string)
| WIFILOG_localIP.

(** The two globals of the header, the credentials it expects to be defined,
    and the network layer: [associated k] is whether the [k]-th evaluation of
    [WiFi.status()] (counted from 0) yields [WL_CONNECTED], [polls] counts the
    evaluations made so far. *)
Record World : Type := mkWorld {
  wifiState : Z;
  wifiWaitSecondCounter : Z;
  wifissid : string;
  wifipwd : string;
  associated : nat -> bool;
  polls : nat;
  trace : list Event
}.

Definition set_wifiState (v : Z) : M World unit :=
  modify (fun w => mkWorld v (wifiWaitSecondCounter w) (wifissid w) (wifipwd w)
                           (associated w) (polls w) (trace w)).

Definition set_wifiWaitSecondCounter (v : Z) : M World unit :=
  modify (fun w => mkWorld (wifiState w) v (wifissid w) (wifipwd w)
                           (associated w) (polls w) (trace w)).

(** [++wifiWaitSecondCounter], yielding the new value. *)
Definition preincr_wifiWaitSecondCounter : M World Z :=
  (c <- gets wifiWaitSecondCounter ;;
   set_wifiWaitSecondCounter (Int.incr c) ;;
   ret (Int.incr c))%prog.

Definition emit (e : Event) : M World unit :=
  modify (fun w => mkWorld (wifiState w) (wifiWaitSecondCounter w) (wifissid w) (wifipwd w)
                           (associated w) (polls w) (trace w ++ [e])).

(** [WiFi.status() == WL_CONNECTED] *)
Definition WiFi_status_is_WL_CONNECTED : M World bool :=
  fun w => (associated w (polls w),
            mkWorld (wifiState w) (wifiWaitSecondCounter w) (wifissid w) (wifipwd w)
                    (associated w) (S (polls w)) (trace w)).

Definition wifiInit : M World unit :=
  (set_wifiState WIFISTATE_DISCONNECTED ;;
   set_wifiWaitSecondCounter 0)%prog.

Definition wifiDisconnect : M World unit :=
  (set_wifiState WIFISTATE_DISCONNECTED ;;
   set_wifiWaitSecondCounter 0 ;;
   emit WiFi_disconnect ;;
   emit (WIFILOG "Wifi disconnect"))%prog.

Definition wifiConnect : M World unit :=
  (set_wifiState WIFISTATE_CONNECTING ;;
   set_wifiWaitSecondCounter 0 ;;
   emit WiFi_mode_STA ;;
   ssid <- gets wifissid ;;
   pwd <- gets wifipwd ;;
   emit (WiFi_begin ssid pwd) ;;
   emit (WIFILOG "Wifi connection initiated"))%prog.

(** [void wifiService()]: four [if] statements in sequence, each testing the
    state the statements before it left. *)
Definition wifiService : M World unit :=
  (s <- gets wifiState ;;
   when (s =? WIFISTATE_CONNECTING)
     (up <- WiFi_status_is_WL_CONNECTED ;;
      if up then
        set_wifiState WIFISTATE_CONNECTED ;;
        set_wifiWaitSecondCounter 0 ;;
        emit (WIFILOG "Wifi connected as ") ;;
        emit WIFILOG_localIP
      else
        c <- preincr_wifiWaitSecondCounter ;;
        when (c >=? WIFIWAIT_MAX)
          (set_wifiState WIFISTATE_ERRORTIMEOUT ;;
           set_wifiWaitSecondCounter 0 ;;
           emit WiFi_disconnect ;;
           emit (WIFILOG "WiFi connection timed-out"))) ;;
   s <- gets wifiState ;;
   when (s =? WIFISTATE_DISCOWAIT)
     (c <- preincr_wifiWaitSecondCounter ;;
      when (c >=? WIFIDISCOWAIT_MAX) wifiConnect) ;;
   s <- gets wifiState ;;
   dropped <- (if s =? WIFISTATE_CONNECTED
               then up <- WiFi_status_is_WL_CONNECTED ;; ret (negb up)
               else ret false) ;;
   when dropped
     (emit (WIFILOG "WiFi disconnect discovered") ;;
      set_wifiState WIFISTATE_DISCOWAIT ;;
      set_wifiWaitSecondCounter 0) ;;
   s <- gets wifiState ;;
   when (s =? WIFISTATE_ERRORTIMEOUT)
     (c <- preincr_wifiWaitSecondCounter ;;
      when (c >=? WIFIRECONNECT_MAX) wifiConnect))%prog.

Definition wifiIsConnected : M World bool :=
  (s <- gets wifiState ;; ret (s =? WIFISTATE_CONNECTED))%prog.

(** The one-second loop: [n] successive calls of [wifiService]. *)
Definition service_calls (n : nat) (w : World) : World :=
  Nat.iter n (exec wifiService) w.

(** The events of [wifiConnect()]. *)
Definition connect_events (w : World) : list Event :=
  [WiFi_mode_STA; WiFi_begin (wifissid w) (wifipwd w);
   WIFILOG "Wifi connection initiated"].

(** The events of the timeout branch of [wifiService()]. *)
Definition timeout_events : list Event :=
  [WiFi_disconnect; WIFILOG "WiFi connection timed-out"].

(** A world used to exercise the theorems: credentials "net"/"pw", a network
    layer that never associates, nothing logged yet. *)
Definition deaf (st c : Z) : World :=
  mkWorld st c "net" "pw" (fun _ => false) 0 [].

End WiFi.

(** ** NTPService.h *)
Module NTP.

Definition NTPSTATE_IDLE : Z := 0.
Definition NTPSTATE_STARTED : Z := 1.
Definition NTPSTATE_COMPLETE : Z := 2.
Definition NTPSTATE_TIMEOUTERROR : Z := 3.
Definition NTPWAIT_MAX : Z := 30.

(** The commands the header sends to its collaborators.  [Call_schedulerInit]
    marks each entry into [schedulerInit()], so that invocations of the hook
    can be counted. *)
Inductive Event : Type :=
| TimeClient_begin
| TimeClient_setTimeOffset (offset : Z)
| TimeClient_forceUpdate
| Serial_println_rtc_getTime (format : string) (epoch : Z)
| Call_schedulerInit.

(** The four globals of the header ([ntpSuccess] is an [int] that only ever
    holds [false] or [true]), the globals of SchedulerService.h, and the
    collaborators:
    - the real-time clock [rtc] holds the epoch [rtc_epoch]; [rtc_fields e] is
      what its getters answer while it holds [e];
    - the time client: [update_ok k] is the result of the [k]-th call of
      [timeClient.update()] (counted from 0), [updates] counts the calls made
      so far, and [epochTime k] is what [timeClient.getEpochTime()] returns
      once [k] calls of [update()] have been made. *)
Record World : Type := mkWorld {
  ntpState : Z;
  ntpWaitSecondCounter : Z;
  ntpAttempts : Z;
  ntpSuccess : bool;
  sched : Scheduler.Baseline;
  rtc_epoch : Z;
  rtc_fields : Z -> Scheduler.Clock;
  update_ok : nat -> bool;
  epochTime : nat -> Z;
  updates : nat;
  trace : list Event
}.

Definition set_ntpState (v : Z) : M World unit :=
  modify (fun w => mkWorld v (ntpWaitSecondCounter w) (ntpAttempts w) (ntpSuccess w)
                           (sched w) (rtc_epoch w) (rtc_fields w)
                           (update_ok w) (epochTime w) (updates w) (trace w)).

Definition set_ntpWaitSecondCounter (v : Z) : M World unit :=
  modify (fun w => mkWorld (ntpState w) v (ntpAttempts w) (ntpSuccess w)
                           (sched w) (rtc_epoch w) (rtc_fields w)
                           (update_ok w) (epochTime w) (updates w) (trace w)).

Definition set_ntpAttempts (v : Z) : M World unit :=
  modify (fun w => mkWorld (ntpState w) (ntpWaitSecondCounter w) v (ntpSuccess w)
                           (sched w) (rtc_epoch w) (rtc_fields w)
                           (update_ok w) (epochTime w) (updates w) (trace w)).

Definition set_ntpSuccess (v : bool) : M World unit :=
  modify (fun w => mkWorld (ntpState w) (ntpWaitSecondCounter w) (ntpAttempts w) v
                           (sched w) (rtc_epoch w) (rtc_fields w)
                           (update_ok w) (epochTime w) (updates w) (trace w)).

Definition set_sched (v : Scheduler.Baseline) : M World unit :=
  modify (fun w => mkWorld (ntpState w) (ntpWaitSecondCounter w) (ntpAttempts w) (ntpSuccess w)
                           v (rtc_epoch w) (rtc_fields w)
                           (update_ok w) (epochTime w) (updates w) (trace w)).

Definition emit (e : Event) : M World unit :=
  modify (fun w => mkWorld (ntpState w) (ntpWaitSecondCounter w) (ntpAttempts w) (ntpSuccess w)
                           (sched w) (rtc_epoch w) (rtc_fields w)
                           (update_ok w) (epochTime w) (updates w) (trace w ++ [e])).

(** [++ntpWaitSecondCounter], yielding the new value. *)
Definition preincr_ntpWaitSecondCounter : M World Z :=
  (c <- gets ntpWaitSecondCounter ;;
   set_ntpWaitSecondCounter (Int.incr c) ;;
   ret (Int.incr c))%prog.

(** [ntpAttempts++] as a statement. *)
Definition incr_ntpAttempts : M World unit :=
  (a <- gets ntpAttempts ;; set_ntpAttempts (Int.incr a))%prog.

(** [timeClient.update()] *)
Definition timeClient_update : M World bool :=
  fun w => (update_ok w (updates w),
            mkWorld (ntpState w) (ntpWaitSecondCounter w) (ntpAttempts w) (ntpSuccess w)
                    (sched w) (rtc_epoch w) (rtc_fields w)
                    (update_ok w) (epochTime w) (S (updates w)) (trace w)).

(** [timeClient.getEpochTime()] *)
Definition timeClient_getEpochTime : M World Z :=
  (k <- gets updates ;; f <- gets epochTime ;; ret (f k))%prog.

(** [rtc.setTime(epoch)] *)
Definition rtc_setTime (epoch : Z) : M World unit :=
  modify (fun w => mkWorld (ntpState w) (ntpWaitSecondCounter w) (ntpAttempts w) (ntpSuccess w)
                           (sched w) epoch (rtc_fields w)
                           (update_ok w) (epochTime w) (updates w) (trace w)).

(** The answers of the clock's getters at this instant. *)
Definition rtc : M World Scheduler.Clock :=
  (e <- gets rtc_epoch ;; f <- gets rtc_fields ;; ret (f e))%prog.

(** [Serial.println(rtc.getTime(format))] *)
Definition Serial_println_rtc (format : string) : M World unit :=
  (e <- gets rtc_epoch ;; emit (Serial_println_rtc_getTime format e))%prog.

(** [schedulerInit()] of SchedulerService.h, run on the globals held in [sched]. *)
Definition schedulerInit : M World unit :=
  (emit Call_schedulerInit ;;
   now <- rtc ;;
   s <- gets sched ;;
   set_sched (Scheduler.schedulerInit now s))%prog.

Definition ntpInit : M World unit :=
  (set_ntpState NTPSTATE_IDLE ;;
   set_ntpWaitSecondCounter 0 ;;
   set_ntpAttempts 0 ;;
   set_ntpSuccess false)%prog.

(** [void ntpService()] *)
Definition ntpService : M World unit :=
  (s <- gets ntpState ;;
   when (s =? NTPSTATE_STARTED)
     (ok <- timeClient_update ;;
      if ok then
        epoch <- timeClient_getEpochTime ;;
        rtc_setTime epoch ;;
        Serial_println_rtc "NTP->RTC=%Y/%m/%d,%H:%M:%S" ;;
        schedulerInit ;;
        set_ntpSuccess true ;;
        incr_ntpAttempts ;;
        set_ntpState NTPSTATE_COMPLETE
      else
        emit TimeClient_forceUpdate ;;
        c <- preincr_ntpWaitSecondCounter ;;
        when (c >=? NTPWAIT_MAX)
          (set_ntpState NTPSTATE_TIMEOUTERROR ;;
           set_ntpSuccess false)))%prog.

Definition ntpStart : M World unit :=
  (emit TimeClient_begin ;;
   emit (TimeClient_setTimeOffset 0) ;;
   set_ntpState NTPSTATE_STARTED ;;
   set_ntpWaitSecondCounter 0 ;;
   set_ntpSuccess false)%prog.

Definition ntpStarted : M World bool :=
  (s <- gets ntpState ;; ret (s =? NTPSTATE_STARTED))%prog.

Definition ntpComplete : M World bool := gets ntpSuccess.

(** The one-second loop: [n] successive calls of [ntpService]. *)
Definition service_calls (n : nat) (w : World) : World :=
  Nat.iter n (exec ntpService) w.

(** How many times a trace enters [schedulerInit()]. *)
Definition is_hook_call (e : Event) : bool :=
  match e with
  | Call_schedulerInit => true
  | _ => false
  end.

Definition hook_calls (tr : list Event) : nat :=
  List.length (filter is_hook_call tr).

(** A world used to exercise the theorems: a clock whose every getter answers
    the epoch it holds, a client that answers [ok] to every [update()] and
    holds epoch 1700000000, two syncs already counted. *)
Definition sample (ok : bool) : World :=
  mkWorld NTPSTATE_IDLE 7 2 true Scheduler.initial 0
          (fun e => Scheduler.mkClock e e (fun _ => e) e e)
          (fun _ => ok) (fun _ => 1700000000) 0 [].

End NTP.

(** ** Sequences of operations on the connectivity state machine *)
Module WiFiOps.
Import WiFi.

(** The four entry points of WiFiService.h that change the globals. *)
Inductive Op : Type :=
| Init
| Connect
| Disconnect
| Service.

Definition step (o : Op) : M World unit :=
  match o with
  | Init => wifiInit
  | Connect => wifiConnect
  | Disconnect => wifiDisconnect
  | Service => wifiService
  end.

(** The calls of [ops], first to last. *)
Definition run (ops : list Op) (w : World) : World :=
  fold_left (fun w o => exec (step o) w) ops w.

(** The bound the header compares the counter with in each state; 1 in the
    states that do not count. *)
Definition wait_limit (st : Z) : Z :=
  if st =? WIFISTATE_CONNECTING then WIFIWAIT_MAX
  else if st =? WIFISTATE_DISCOWAIT then WIFIDISCOWAIT_MAX
  else if st =? WIFISTATE_ERRORTIMEOUT then WIFIRECONNECT_MAX
  else 1.

(** The state is one of the five constants and the counter is below the
    bound of that state. *)
Definition well_formed (w : World) : bool :=
  (WIFISTATE_DISCONNECTED <=? wifiState w) && (wifiState w <=? WIFISTATE_ERRORTIMEOUT)
  && (0 <=? wifiWaitSecondCounter w)
  && (wifiWaitSecondCounter w <? wait_limit (wifiState w)).

(** The events of the branch of [wifiService()] that finds the connection up. *)
Definition connected_events : list Event :=
  [WIFILOG "Wifi connected as "; WIFILOG_localIP].

(** The event of the branch of [wifiService()] that finds the connection lost. *)
Definition dropped_events : list Event :=
  [WIFILOG "WiFi disconnect discovered"].

End WiFiOps.

(** ** Character arrays

    The buffers of sioService.h and FileSystemService.h are C arrays of
    bytes.  An array is the list of its cells; an access outside the array is
    undefined in C and is the result [None] here. *)
Module CMem.

(** [a[i] = v] *)
Definition store (i : Z) (v : Z) (a : list Z) : option (list Z) :=
  if (0 <=? i) && (i <? Z.of_nat (List.length a))
  then Some (firstn (Z.to_nat i) a ++ v :: skipn (S (Z.to_nat i)) a)
  else None.

(** The string that starts at the first cell: the cells before the first
    NUL.  [None] when the array holds no NUL. *)
Fixpoint cstring (a : list Z) : option (list Z) :=
  match a with
  | [] => None
  | c :: rest =>
      if c =? 0 then Some []
      else match cstring rest with
           | Some s => Some (c :: s)
           | None => None
           end
  end.

(** [strcpy(dst, src)]: the string of [src] and its NUL go to the first cells
    of [dst]. *)
Definition strcpy (dst src : list Z) : option (list Z) :=
  match cstring src with
  | Some s =>
      if (List.length s <? List.length dst)%nat
      then Some (s ++ 0 :: skipn (S (List.length s)) dst)
      else None
  | None => None
  end.

(** [strncmp(a, b, n)]: the difference of the first cells that differ among
    the first [n], 0 when there is none before a NUL or before [n] cells. *)
Fixpoint strncmp (a b : list Z) (n : nat) {struct n} : option Z :=
  match n with
  | O => Some 0
  | S n' =>
      match a, b with
      | ca :: ra, cb :: rb =>
          if negb (ca =? cb) then Some (ca - cb)
          else if ca =? 0 then Some 0
          else strncmp ra rb n'
      | _, _ => None
      end
  end.

(** The [n] cells [strncpy] writes: the cells of [src] up to its NUL, then
    NULs; no NUL at all when [src] holds [n] cells or more before its NUL. *)
Fixpoint strncpy_cells (src : list Z) (n : nat) {struct n} : option (list Z) :=
  match n with
  | O => Some []
  | S n' =>
      match src with
      | [] => None
      | c :: rest =>
          if c =? 0 then Some (repeat 0 (S n'))
          else match strncpy_cells rest n' with
               | Some cells => Some (c :: cells)
               | None => None
               end
      end
  end.

(** [strncpy(dst, src, n)] *)
Definition strncpy (dst src : list Z) (n : nat) : option (list Z) :=
  match strncpy_cells src n with
  | Some cells =>
      if (n <=? List.length dst)%nat then Some (cells ++ skipn n dst) else None
  | None => None
  end.

(** The cells of a list before its first NUL. *)
Fixpoint until_nul (l : list Z) : list Z :=
  match l with
  | [] => []
  | c :: rest => if c =? 0 then [] else c :: until_nul rest
  end.

End CMem.

(** ** sioService.h *)
Module Sio.

Definition SIO_INPUT_MAXLEN : Z := 128.

(** What the header prints on the serial port: the prompt [SIOPROMPT] and the
    echo of a character. *)
Inductive Event : Type :=
| Print_SIOPROMPT
| Print_char (c : Z).

(** The globals [siobuf], [siorx] (arrays of [SIO_INPUT_MAXLEN+4] cells) and
    [siobufptr], the bytes waiting in the receive buffer of the serial port,
    oldest first, and what has been printed. *)
Record World : Type := mkWorld {
  siobuf : list Z;
  siorx : list Z;
  siobufptr : Z;
  received : list Z;
  printed : list Event
}.

(** The globals as the program starts: C zero-initialises them. *)
Definition startup (rx : list Z) : World :=
  mkWorld (repeat 0 132) (repeat 0 132) 0 rx [].

(** What [sioService] returns: [NULL] or [&siorx[0]]. *)
Inductive Ptr : Type :=
| NULL
| Siorx.

Definition sioInit (w : World) : World :=
  mkWorld (siobuf w) (siorx w) 0 (received w) (printed w ++ [Print_SIOPROMPT]).

(** [char* sioService()].  The [while (Serial.available())] loop takes one
    byte per round, so it is a recursion on the bytes waiting; a round that
    sees CR or LF returns from inside the loop and leaves the bytes after it
    in the receive buffer. *)
Fixpoint sioService_loop (rx : list Z) (buf rxline : list Z) (ptr : Z)
    (out : list Event) : option (Ptr * World) :=
  match rx with
  | [] => Some (NULL, mkWorld buf rxline ptr [] out)
  | b :: rest =>
      let c := Z.land b 127 in
      if (c =? 13) || (c =? 10) then
        match CMem.store ptr 0 buf with
        | Some buf' =>
            match CMem.strcpy rxline buf' with
            | Some rxline' =>
                Some (Siorx, mkWorld buf' rxline' 0 rest (out ++ [Print_SIOPROMPT]))
            | None => None
            end
        | None => None
        end
      else if ptr <? SIO_INPUT_MAXLEN then
        match CMem.store ptr c buf with
        | Some buf' => sioService_loop rest buf' rxline (Int.incr ptr) (out ++ [Print_char c])
        | None => None
        end
      else sioService_loop rest buf rxline ptr out
  end.

Definition sioService (w : World) : option (Ptr * World) :=
  sioService_loop (received w) (siobuf w) (siorx w) (siobufptr w) (printed w).

(** The line a caller reads through the pointer [sioService] returned. *)
Definition line (w : World) : option (list Z) := CMem.cstring (siorx w).

(** More bytes arrive on the serial port. *)
Definition receive (more : list Z) (w : World) : World :=
  mkWorld (siobuf w) (siorx w) (siobufptr w) (received w ++ more) (printed w).

(** The arrays have their declared size and [siobufptr] is within
    [0 .. SIO_INPUT_MAXLEN]. *)
Definition well_formed (w : World) : bool :=
  (List.length (siobuf w) =? 132)%nat && (List.length (siorx w) =? 132)%nat
  && (0 <=? siobufptr w) && (siobufptr w <=? SIO_INPUT_MAXLEN).

(** A byte that ends a line once its high bit is masked. *)
Definition is_eol (b : Z) : bool :=
  (Z.land b 127 =? 13) || (Z.land b 127 =? 10).

(** The characters kept from the bytes [l] when [ptr] cells are already
    used: masked to 7 bits, and no more than fit below [SIO_INPUT_MAXLEN]. *)
Definition kept (ptr : Z) (l : list Z) : list Z :=
  firstn (Z.to_nat (SIO_INPUT_MAXLEN - ptr)) (map (fun b => Z.land b 127) l).

End Sio.

(** ** FileSystemService.h: [readln] and [readKey] *)
Module FileSystem.

(** [char c = finp.read();] for a byte 0..255 of the file.  Whether [char] is
    signed depends on the target; [char_is_signed] says which.  Where it is,
    the bytes from 128 up are negative characters. *)
Definition to_char (char_is_signed : bool) (b : Z) : Z :=
  if char_is_signed && (128 <=? b) then b - 256 else b.

(** The [while (len<(maxlen-1))] loop of [readln]: [finp] is what is left of
    the file, [finp.available()] is whether any byte is left.  Every round
    that goes on takes one byte, so the loop is a recursion on [finp].
    Result: [len], [eof], what is left of the file, the buffer. *)
Fixpoint readln_loop (char_is_signed : bool) (finp buf : list Z) (len maxlen : Z)
    : option (Z * bool * list Z * list Z) :=
  if len <? Int.wrap (maxlen - 1) then
    match finp with
    | [] => Some (len, true, finp, buf)
    | b :: rest =>
        let c := to_char char_is_signed b in
        if c <? 0 then Some (len, true, rest, buf)
        else if c =? 13 then readln_loop char_is_signed rest buf len maxlen
        else if c =? 10 then Some (len, false, rest, buf)
        else match CMem.store len (c mod 256) buf with
             | Some buf' => readln_loop char_is_signed rest buf' (Int.incr len) maxlen
             | None => None
             end
    end
  else Some (len, false, finp, buf).

(** [int readln(File finp, uint8_t* buf, int maxlen)]: the result ([!eof]),
    what is left of the file, the buffer. *)
Definition readln (char_is_signed : bool) (finp buf : list Z) (maxlen : Z)
    : option (bool * list Z * list Z) :=
  match CMem.store 0 0 buf with
  | Some buf0 =>
      match readln_loop char_is_signed finp buf0 0 maxlen with
      | Some (len, eof, finp', buf1) =>
          match CMem.store len 0 buf1 with
          | Some buf2 => Some (negb eof, finp', buf2)
          | None => None
          end
      | None => None
      end
  | None => None
  end.

(** What [readKey] prints on the serial port. *)
Inductive Event : Type :=
| Serial_println_text (s : string)
| Serial_print_text (s : string)
| Serial_println (s : list Z)
| Serial_print (s : list Z).

(** How a run of [readKey] ends: it returns, or it accesses memory outside
    an array (undefined in C), or the rounds allotted to its loop are used
    up. *)
Inductive Result (A : Type) : Type :=
| Returns (a : A)
| Undefined
| Unfinished.

Arguments Returns {A} a.
Arguments Undefined {A}.
Arguments Unfinished {A}.

(** [maxlen] passed as the [size_t] argument of [strncpy]. *)
Definition size_t_of_int (z : Z) : nat := Z.to_nat (z mod 4294967296).

(** The [while (readln(finp, buf, 127))] loop of [readKey], at most [rounds]
    rounds of it.  [n] is [strlen(key)].  Result: [retval] and [outbuf]. *)
Fixpoint readKey_loop (char_is_signed : bool) (rounds : nat)
    (finp buf key outbuf : list Z) (n : nat) (maxlen : Z)
    : Result (bool * list Z) :=
  match rounds with
  | O => Unfinished
  | S rounds' =>
      match readln char_is_signed finp buf 127 with
      | Some (true, finp', buf') =>
          match CMem.strncmp buf' key n with
          | Some d =>
              if d =? 0 then
                match CMem.strncpy outbuf (skipn n buf') (size_t_of_int maxlen) with
                | Some outbuf' => Returns (true, outbuf')
                | None => Undefined
                end
              else readKey_loop char_is_signed rounds' finp' buf' key outbuf n maxlen
          | None => Undefined
          end
      | Some (false, _, _) => Returns (false, outbuf)
      | None => Undefined
      end
  end.

(** [int readKey(char* configFn, char* key, char* outbuf, int maxlen)].
    [fileSystem_open name] is the content of the file [fileSystem.open]
    finds under [name], [None] when it finds none.  The local [buf] is
    [char buf[128]]; [readln] writes its NUL before anything reads it.  The
    [File] handed to [readln] shares its position with the one [readKey]
    holds.  The loop gets one round more than the file has bytes.  Result:
    the value returned, [outbuf], what was printed. *)
Definition readKey (char_is_signed : bool) (fileSystem_open : list Z -> option (list Z))
    (configFn key outbuf : list Z) (maxlen : Z)
    : Result (bool * list Z * list Event) :=
  match CMem.store 0 0 outbuf, CMem.cstring configFn with
  | Some outbuf0, Some name =>
      match fileSystem_open name with
      | None =>
          Returns (false, outbuf0,
                   [Serial_println_text "Unable to read config file - readKey"])
      | Some content =>
          match CMem.cstring key with
          | Some k =>
              match readKey_loop char_is_signed (S (List.length content)) content
                      (repeat 0 128) key outbuf0 (List.length k) maxlen with
              | Returns (false, outbuf') =>
                  Returns (false, outbuf',
                           [Serial_println_text "Unable to find key"; Serial_println k])
              | Returns (true, outbuf') =>
                  match CMem.cstring outbuf' with
                  | Some value =>
                      Returns (true, outbuf',
                               [Serial_print_text "Found key "; Serial_print k;
                                Serial_println value])
                  | None => Undefined
                  end
              | Undefined => Undefined
              | Unfinished => Unfinished
              end
          | None => Undefined
          end
      end
  | _, _ => Undefined
  end.

(** A config file as its lines: each line is followed by LF. *)
Definition file_of_lines (lines : list (list Z)) : list Z :=
  flat_map (fun l => l ++ [10]) lines.

(** [key] is the beginning of [l]. *)
Fixpoint is_prefix (key l : list Z) : bool :=
  match key, l with
  | [], _ => true
  | k :: key', c :: l' => (k =? c) && is_prefix key' l'
  | _ :: _, [] => false
  end.

(** The rest of the first line that begins with [key]. *)
Fixpoint lookup (key : list Z) (lines : list (list Z)) : option (list Z) :=
  match lines with
  | [] => None
  | l :: rest =>
      if is_prefix key l then Some (skipn (List.length key) l) else lookup key rest
  end.

(** A character of a text line: 7-bit, not NUL, not LF, not CR. *)
Definition is_text (b : Z) : bool :=
  (0 <? b) && (b <? 128) && negb (b =? 10) && negb (b =? 13).

(** The CRs removed. *)
Definition without_cr (l : list Z) : list Z :=
  filter (fun b => negb (b =? 13)) l.

(** A line of at most 125 text characters: with its LF it is read whole by
    the [readln(finp, buf, 127)] of [readKey]. *)
Definition is_text_line (l : list Z) : bool :=
  forallb is_text l && (List.length l <=? 125)%nat.

(** What [strncpy(outbuf, value, n)] leaves in [outbuf], [value] being a
    string without NUL: the first [n] characters of [value], padded with NULs
    up to [n] cells when [value] is shorter. *)
Definition copied (outbuf value : list Z) (n : nat) : list Z :=
  firstn n value ++ repeat 0 (n - List.length value) ++ skipn n outbuf.

End FileSystem.

(** * Arithmetic shared by the proofs *)

Lemma incr_small (z : Z) :
  Int.INT_MIN <= z < Int.INT_MAX -> Int.incr z = z + 1.
Proof.
  unfold Int.INT_MIN, Int.INT_MAX, Int.incr, Int.wrap. intros H.
  rewrite Z.mod_small by lia. lia.
Qed.

Lemma geb_false (x y : Z) : x < y -> (x >=? y) = false.
Proof. intros H. rewrite Z.geb_leb. apply Z.leb_gt. exact H. Qed.

Lemma geb_true (x y : Z) : y <= x -> (x >=? y) = true.
Proof. intros H. rewrite Z.geb_leb. apply Z.leb_le. exact H. Qed.

(** * Properties of the calendar edge detectors *)
Module SchedulerSpec.
Import Scheduler.

Lemma base_rebase (d : Detector) (v : Z) (s : Baseline) :
  In d detectors -> base d (rebase d v s) = v.
Proof.
  intros Hd.
  repeat (destruct Hd as [<- | Hd]; [reflexivity |]). destruct Hd.
Qed.

(** A call that reads the value the global already holds. *)
Lemma detect_unchanged (d : Detector) (rtc : Clock) (s : Baseline) :
  In d detectors -> field d rtc = base d s -> detect d rtc s = (false, s).
Proof.
  intros Hd Heq.
  repeat (destruct Hd as [<- | Hd];
          [cbn in *;
           unfold secondDetector, minuteDetector, hourDetector, dayDetector;
           cbv zeta; rewrite Heq, Z.eqb_refl; reflexivity |]).
  destruct Hd.
Qed.

(** A call that reads another value than the one the global holds, the global
    not being the sentinel. *)
Lemma detect_changed (d : Detector) (rtc : Clock) (s : Baseline) :
  In d detectors -> base d s <> unset -> field d rtc <> base d s ->
  detect d rtc s = (true, rebase d (field d rtc) s).
Proof.
  intros Hd Hset Hne. unfold unset in Hset.
  apply Z.eqb_neq in Hne. apply Z.eqb_neq in Hset.
  repeat (destruct Hd as [<- | Hd];
          [cbn in *;
           unfold secondDetector, minuteDetector, hourDetector, dayDetector;
           cbv zeta; rewrite Hne; try rewrite Hset; reflexivity |]).
  destruct Hd.
Qed.

Lemma calls_cons (d : Detector) (rtc : Clock) (rest : list Clock) (s : Baseline) :
  fst (calls d (rtc :: rest) s)
  = fst (detect d rtc s) :: fst (calls d rest (snd (detect d rtc s))).
Proof.
  simpl. destruct (detect d rtc s) as [r s']. cbn [fst snd].
  destruct (calls d rest s') as [rs s'']. reflexivity.
Qed.

Lemma detect_head (d : Detector) (rtc : Clock) (s : Baseline) :
  In d detectors -> base d s <> unset ->
  fst (detect d rtc s) = negb (field d rtc =? base d s) /\
  base d (snd (detect d rtc s)) = field d rtc.
Proof.
  intros Hd Hset. destruct (Z.eq_dec (field d rtc) (base d s)) as [E | E].
  - rewrite detect_unchanged by assumption.
    rewrite E, Z.eqb_refl. split; reflexivity.
  - rewrite detect_changed by assumption.
    apply Z.eqb_neq in E. rewrite E. cbn [fst snd negb].
    split; [reflexivity | apply base_rebase; assumption].
Qed.

(** Along a sequence of calls before each of which the global is not the
    sentinel, the calls that return true are those whose reading differs from
    the reading of the call before. *)
Lemma calls_changes (d : Detector) :
  In d detectors ->
  forall (rtcs : list Clock) (s : Baseline),
    Forall (fun v => v <> unset) (base d s :: removelast (map (field d) rtcs)) ->
    fst (calls d rtcs s) = changes (base d s) (map (field d) rtcs).
Proof.
  intros Hd rtcs. induction rtcs as [| rtc rest IH]; intros s Hall.
  - reflexivity.
  - rewrite calls_cons. cbn [map changes].
    inversion Hall as [| b l Hb Hrest]; subst.
    destruct (detect_head d rtc s Hd Hb) as [-> Hbase]. f_equal.
    destruct rest as [| rtc' rest'].
    + reflexivity.
    + rewrite IH; rewrite Hbase; [reflexivity | exact Hrest].
Qed.

(** C3: for each of the four detectors, while its global holds a value other
    than the sentinel -1, a call that reads the value the global holds
    returns false and leaves the globals as they are, and a call that reads
    another value returns true and stores that value; hence along any
    sequence of calls before each of which the global is not the sentinel,
    exactly the calls whose reading differs from the previous reading return
    true. *)
Theorem C3_edge_triggered :
  forall d : Detector, In d detectors ->
    (forall (rtc : Clock) (s : Baseline), base d s <> unset ->
       (field d rtc = base d s -> detect d rtc s = (false, s)) /\
       (field d rtc <> base d s ->
        detect d rtc s = (true, rebase d (field d rtc) s) /\
        base d (rebase d (field d rtc) s) = field d rtc)) /\
    (forall (rtcs : list Clock) (s : Baseline),
       Forall (fun v => v <> unset) (base d s :: removelast (map (field d) rtcs)) ->
       fst (calls d rtcs s) = changes (base d s) (map (field d) rtcs)).
Proof.
  intros d Hd. split.
  - intros rtc s Hset. split.
    + intros E. apply detect_unchanged; assumption.
    + intros E. split.
      * apply detect_changed; assumption.
      * apply base_rebase; assumption.
  - apply calls_changes; assumption.
Qed.

(** The day detector with its global at 14: a call on the 14th, a call on the
    15th, and the calls along the day sequence 14, 14, 15, 15, 15, 16. *)
Lemma C3_edge_triggered_witness :
  let on day := mkClock 0 0 (fun _ => 0) 0 day in
  let s := mkBaseline 14 0 0 0 in
  dayDetector (on 14) s = (false, s) /\
  dayDetector (on 15) s = (true, mkBaseline 15 0 0 0) /\
  fst (calls day_d (map on [14; 14; 15; 15; 15; 16]) s)
  = [false; false; true; false; false; true].
Proof.
  intros on s.
  assert (Hin : In day_d detectors) by (simpl; tauto).
  assert (Hset : base day_d s <> unset) by discriminate.
  destruct (C3_edge_triggered day_d Hin) as [Hcall Hseq].
  split; [exact (proj1 (Hcall (on 14) s Hset) eq_refl) |].
  split.
  - refine (proj1 (proj2 (Hcall (on 15) s Hset) _)). discriminate.
  - apply (Hseq (map on [14; 14; 15; 15; 15; 16]) s).
    repeat constructor; discriminate.
Defined.

(** C9: when its global is the sentinel -1, the day detector returns false
    and leaves the day it read in [lastDay], the other three globals as they
    were; the second, minute and hour detectors return true, and leave what
    they read in their own global, the other three as they were, whenever
    that reading is not -1. *)
Theorem C9_first_call_from_sentinel :
  forall (rtc : Clock) (s : Baseline),
    (lastDay s = unset ->
     dayDetector rtc s
     = (false, mkBaseline (getDay rtc) (lastHr s) (lastMin s) (lastSec s)) /\
     lastDay (snd (dayDetector rtc s)) = getDay rtc) /\
    (lastSec s = unset -> getSecond rtc <> unset ->
     secondDetector rtc s
     = (true, mkBaseline (lastDay s) (lastHr s) (lastMin s) (getSecond rtc)) /\
     lastSec (snd (secondDetector rtc s)) = getSecond rtc) /\
    (lastMin s = unset -> getMinute rtc <> unset ->
     minuteDetector rtc s
     = (true, mkBaseline (lastDay s) (lastHr s) (getMinute rtc) (lastSec s)) /\
     lastMin (snd (minuteDetector rtc s)) = getMinute rtc) /\
    (lastHr s = unset -> getHour rtc true <> unset ->
     hourDetector rtc s
     = (true, mkBaseline (lastDay s) (getHour rtc true) (lastMin s) (lastSec s)) /\
     lastHr (snd (hourDetector rtc s)) = getHour rtc true).
Proof.
  intros rtc [dd hh mm ss]. unfold unset. cbn [lastDay lastSec lastMin lastHr].
  repeat apply conj.
  - intros ->. unfold dayDetector. cbn [lastDay]. cbv zeta.
    destruct (Z.eqb_spec (getDay rtc) (-1)) as [E | E].
    + rewrite E. split; reflexivity.
    + split; reflexivity.
  - intros -> Hne. unfold secondDetector. cbn [lastSec]. cbv zeta.
    apply Z.eqb_neq in Hne. rewrite Hne. split; reflexivity.
  - intros -> Hne. unfold minuteDetector. cbn [lastMin]. cbv zeta.
    apply Z.eqb_neq in Hne. rewrite Hne. split; reflexivity.
  - intros -> Hne. unfold hourDetector. cbn [lastHr]. cbv zeta.
    apply Z.eqb_neq in Hne. rewrite Hne. split; reflexivity.
Qed.

(** The first calls after start-up at 07:42:13 on the 9th. *)
Lemma C9_first_call_from_sentinel_witness :
  let rtc := mkClock 13 42 (fun _ => 7) 7 9 in
  dayDetector rtc initial = (false, mkBaseline 9 (-1) (-1) (-1)) /\
  secondDetector rtc initial = (true, mkBaseline (-1) (-1) (-1) 13) /\
  minuteDetector rtc initial = (true, mkBaseline (-1) (-1) 42 (-1)) /\
  hourDetector rtc initial = (true, mkBaseline (-1) 7 (-1) (-1)).
Proof.
  intros rtc.
  destruct (C9_first_call_from_sentinel rtc initial) as (Hd & Hs & Hm & Hh).
  split; [exact (proj1 (Hd eq_refl)) |].
  split; [apply Hs; [reflexivity | discriminate] |].
  split; [apply Hm; [reflexivity | discriminate] |].
  apply Hh; [reflexivity | discriminate].
Defined.

(** C8, as the claim states it, fails: reset at second 5, next call of the
    second detector at second 6. *)
Lemma C8_counterexample :
  let rtc0 := mkClock 5 0 (fun _ => 0) 0 1 in
  let rtc1 := mkClock 6 0 (fun _ => 0) 0 1 in
  fst (secondDetector rtc1 (schedulerInit rtc0 initial)) = true.
Proof. reflexivity. Qed.

(** C8 (amended): right after [schedulerInit], the next call of the second,
    minute or day detector returns false when the field it reads equals the
    field the reset read, and the globals stay as the reset left them.  When
    the second or the minute has changed since the reset, its detector
    returns true. *)
Theorem C8_reset_suppresses_refire :
  forall (rtc0 rtc1 : Clock) (s : Baseline),
    let s0 := schedulerInit rtc0 s in
    (getSecond rtc1 = getSecond rtc0 -> secondDetector rtc1 s0 = (false, s0)) /\
    (getMinute rtc1 = getMinute rtc0 -> minuteDetector rtc1 s0 = (false, s0)) /\
    (getDay rtc1 = getDay rtc0 -> dayDetector rtc1 s0 = (false, s0)) /\
    (getSecond rtc1 <> getSecond rtc0 -> fst (secondDetector rtc1 s0) = true) /\
    (getMinute rtc1 <> getMinute rtc0 -> fst (minuteDetector rtc1 s0) = true).
Proof.
  intros rtc0 rtc1 s s0. subst s0.
  unfold secondDetector, minuteDetector, dayDetector, schedulerInit.
  cbn. repeat split.
  - intros ->. rewrite Z.eqb_refl. reflexivity.
  - intros ->. rewrite Z.eqb_refl. reflexivity.
  - intros ->. rewrite Z.eqb_refl. reflexivity.
  - intros Hne. apply Z.eqb_neq in Hne. rewrite Hne. reflexivity.
  - intros Hne. apply Z.eqb_neq in Hne. rewrite Hne. reflexivity.
Qed.

(** Reset at 07:42:13 on the 9th, next calls within the same second. *)
Lemma C8_reset_suppresses_refire_witness :
  let rtc := mkClock 13 42 (fun _ => 7) 7 9 in
  let s0 := schedulerInit rtc initial in
  secondDetector rtc s0 = (false, mkBaseline 9 7 42 13) /\
  minuteDetector rtc s0 = (false, mkBaseline 9 7 42 13) /\
  dayDetector rtc s0 = (false, mkBaseline 9 7 42 13).
Proof.
  intros rtc s0.
  destruct (C8_reset_suppresses_refire rtc rtc initial) as (Hs & Hm & Hd & _).
  split; [exact (Hs eq_refl) |].
  split; [exact (Hm eq_refl) |].
  exact (Hd eq_refl).
Defined.

End SchedulerSpec.

(** * Properties of the connectivity state machine *)
Module WiFiSpec.
Import WiFi.

(** Runs the monadic code of the header on a world given field by field. *)
Ltac wifi_run :=
  cbv [exec bind gets ret when modify fst snd negb
       wifiService wifiConnect wifiDisconnect wifiInit
       set_wifiState set_wifiWaitSecondCounter preincr_wifiWaitSecondCounter
       emit WiFi_status_is_WL_CONNECTED
       wifiState wifiWaitSecondCounter wifissid wifipwd associated polls trace
       WIFISTATE_DISCONNECTED WIFISTATE_CONNECTING WIFISTATE_CONNECTED
       WIFISTATE_DISCOWAIT WIFISTATE_ERRORTIMEOUT
       WIFIWAIT_MAX WIFIRECONNECT_MAX WIFIDISCOWAIT_MAX
       Z.eqb Pos.eqb].

(** The same without deciding the tests on the state. *)
Ltac wifi_unfold :=
  cbv [exec bind gets ret when modify fst snd negb
       wifiService wifiConnect wifiDisconnect wifiInit
       set_wifiState set_wifiWaitSecondCounter preincr_wifiWaitSecondCounter
       emit WiFi_status_is_WL_CONNECTED
       wifiState wifiWaitSecondCounter wifissid wifipwd associated polls trace
       WIFISTATE_DISCONNECTED WIFISTATE_CONNECTING WIFISTATE_CONNECTED
       WIFISTATE_DISCOWAIT WIFISTATE_ERRORTIMEOUT
       WIFIWAIT_MAX WIFIRECONNECT_MAX WIFIDISCOWAIT_MAX].

(** Case analysis on the value of [wifiState]: one of the four states the
    service acts on, or any other value. *)
Ltac split_state st :=
  destruct (Z.eq_dec st 1) as [-> | ?];
  [| destruct (Z.eq_dec st 2) as [-> | ?];
     [| destruct (Z.eq_dec st 3) as [-> | ?];
        [| destruct (Z.eq_dec st 4) as [-> | ?];
           [| repeat (progress
                        (rewrite ?(proj2 (Z.eqb_neq st 1)), ?(proj2 (Z.eqb_neq st 2)),
                                 ?(proj2 (Z.eqb_neq st 3)), ?(proj2 (Z.eqb_neq st 4))
                           by assumption);
                      wifi_unfold)]]]].

Ltac branch :=
  match goal with
  | |- context [if ?b then _ else _] => destruct b eqn:?
  end.

(** The counter right after a transition reset it, and its comparisons. *)
Ltac fresh_counter :=
  change (Int.incr 0) with 1;
  change (1 >=? 60) with false; change (1 >=? 10) with false.

(** *** One call of [wifiService], branch by branch *)

Lemma connecting_wait (w : World) :
  wifiState w = WIFISTATE_CONNECTING -> associated w (polls w) = false ->
  Int.incr (wifiWaitSecondCounter w) < WIFIWAIT_MAX ->
  exec wifiService w
  = mkWorld WIFISTATE_CONNECTING (Int.incr (wifiWaitSecondCounter w))
            (wifissid w) (wifipwd w) (associated w) (S (polls w)) (trace w).
Proof.
  destruct w as [st c ssid pwd a p tr]. wifi_run. intros -> Ha Hc.
  wifi_run. rewrite Ha, (geb_false _ _ Hc). reflexivity.
Qed.

Lemma connecting_timeout (w : World) :
  wifiState w = WIFISTATE_CONNECTING -> associated w (polls w) = false ->
  WIFIWAIT_MAX <= Int.incr (wifiWaitSecondCounter w) ->
  exec wifiService w
  = mkWorld WIFISTATE_ERRORTIMEOUT 1
            (wifissid w) (wifipwd w) (associated w) (S (polls w))
            (trace w ++ timeout_events).
Proof.
  destruct w as [st c ssid pwd a p tr]. wifi_run. intros -> Ha Hc.
  wifi_run. rewrite Ha, (geb_true _ _ Hc).
  change (Int.incr 0) with 1. change (1 >=? 60) with false.
  cbv beta iota. unfold timeout_events. rewrite <- app_assoc. reflexivity.
Qed.

Lemma errortimeout_wait (w : World) :
  wifiState w = WIFISTATE_ERRORTIMEOUT ->
  Int.incr (wifiWaitSecondCounter w) < WIFIRECONNECT_MAX ->
  exec wifiService w
  = mkWorld WIFISTATE_ERRORTIMEOUT (Int.incr (wifiWaitSecondCounter w))
            (wifissid w) (wifipwd w) (associated w) (polls w) (trace w).
Proof.
  destruct w as [st c ssid pwd a p tr]. wifi_run. intros -> Hc.
  wifi_run. rewrite (geb_false _ _ Hc). reflexivity.
Qed.

Lemma errortimeout_reconnect (w : World) :
  wifiState w = WIFISTATE_ERRORTIMEOUT ->
  WIFIRECONNECT_MAX <= Int.incr (wifiWaitSecondCounter w) ->
  exec wifiService w
  = mkWorld WIFISTATE_CONNECTING 0
            (wifissid w) (wifipwd w) (associated w) (polls w)
            (trace w ++ connect_events w).
Proof.
  destruct w as [st c ssid pwd a p tr]. wifi_run. intros -> Hc.
  wifi_run. rewrite (geb_true _ _ Hc).
  unfold connect_events. cbn [wifissid wifipwd].
  rewrite <- !app_assoc. reflexivity.
Qed.

Lemma discowait_wait (w : World) :
  wifiState w = WIFISTATE_DISCOWAIT ->
  Int.incr (wifiWaitSecondCounter w) < WIFIDISCOWAIT_MAX ->
  exec wifiService w
  = mkWorld WIFISTATE_DISCOWAIT (Int.incr (wifiWaitSecondCounter w))
            (wifissid w) (wifipwd w) (associated w) (polls w) (trace w).
Proof.
  destruct w as [st c ssid pwd a p tr]. wifi_run. intros -> Hc.
  wifi_run. rewrite (geb_false _ _ Hc). reflexivity.
Qed.

Lemma discowait_reconnect (w : World) :
  wifiState w = WIFISTATE_DISCOWAIT ->
  WIFIDISCOWAIT_MAX <= Int.incr (wifiWaitSecondCounter w) ->
  exec wifiService w
  = mkWorld WIFISTATE_CONNECTING 0
            (wifissid w) (wifipwd w) (associated w) (polls w)
            (trace w ++ connect_events w).
Proof.
  destruct w as [st c ssid pwd a p tr]. wifi_run. intros -> Hc.
  wifi_run. rewrite (geb_true _ _ Hc).
  unfold connect_events. cbn [wifissid wifipwd].
  rewrite <- !app_assoc. reflexivity.
Qed.

Lemma connected_drop (w : World) :
  wifiState w = WIFISTATE_CONNECTED -> associated w (polls w) = false ->
  exec wifiService w
  = mkWorld WIFISTATE_DISCOWAIT 0
            (wifissid w) (wifipwd w) (associated w) (S (polls w))
            (trace w ++ [WIFILOG "WiFi disconnect discovered"]).
Proof.
  destruct w as [st c ssid pwd a p tr]. wifi_run. intros -> Ha.
  wifi_run. rewrite Ha. reflexivity.
Qed.

Lemma wifi_calls_S (n : nat) (w : World) :
  service_calls (S n) w = exec wifiService (service_calls n w).
Proof. reflexivity. Qed.

Lemma wifi_calls_add (m n : nat) (w : World) :
  service_calls (m + n) w = service_calls m (service_calls n w).
Proof. unfold service_calls. apply Nat.iter_add. Qed.

(** *** Waiting in one state for [n] calls *)

Lemma connecting_wait_n (n : nat) (w : World) :
  wifiState w = WIFISTATE_CONNECTING ->
  (forall k, associated w k = false) ->
  0 <= wifiWaitSecondCounter w ->
  wifiWaitSecondCounter w + Z.of_nat n < WIFIWAIT_MAX ->
  service_calls n w
  = mkWorld WIFISTATE_CONNECTING (wifiWaitSecondCounter w + Z.of_nat n)
            (wifissid w) (wifipwd w) (associated w) (polls w + n) (trace w).
Proof.
  intros Hst Ha Hc0. unfold WIFIWAIT_MAX. induction n as [| n IH]; intros Hc.
  - destruct w; cbn in *. subst. rewrite Z.add_0_r, Nat.add_0_r. reflexivity.
  - rewrite wifi_calls_S, IH by lia.
    rewrite connecting_wait; cbn [wifiState wifiWaitSecondCounter wifissid wifipwd
                                   associated polls trace].
    + rewrite incr_small by (unfold Int.INT_MIN, Int.INT_MAX; lia).
      f_equal; [lia | rewrite Nat.add_succ_r; reflexivity].
    + reflexivity.
    + apply Ha.
    + rewrite incr_small by (unfold Int.INT_MIN, Int.INT_MAX; lia). unfold WIFIWAIT_MAX. lia.
Qed.

Lemma errortimeout_wait_n (n : nat) (w : World) :
  wifiState w = WIFISTATE_ERRORTIMEOUT ->
  0 <= wifiWaitSecondCounter w ->
  wifiWaitSecondCounter w + Z.of_nat n < WIFIRECONNECT_MAX ->
  service_calls n w
  = mkWorld WIFISTATE_ERRORTIMEOUT (wifiWaitSecondCounter w + Z.of_nat n)
            (wifissid w) (wifipwd w) (associated w) (polls w) (trace w).
Proof.
  intros Hst Hc0. unfold WIFIRECONNECT_MAX. induction n as [| n IH]; intros Hc.
  - destruct w; cbn in *. subst. rewrite Z.add_0_r. reflexivity.
  - rewrite wifi_calls_S, IH by lia.
    rewrite errortimeout_wait; cbn [wifiState wifiWaitSecondCounter wifissid wifipwd
                                     associated polls trace].
    + rewrite incr_small by (unfold Int.INT_MIN, Int.INT_MAX; lia). f_equal; lia.
    + reflexivity.
    + rewrite incr_small by (unfold Int.INT_MIN, Int.INT_MAX; lia). unfold WIFIRECONNECT_MAX. lia.
Qed.

Lemma discowait_wait_n (n : nat) (w : World) :
  wifiState w = WIFISTATE_DISCOWAIT ->
  0 <= wifiWaitSecondCounter w ->
  wifiWaitSecondCounter w + Z.of_nat n < WIFIDISCOWAIT_MAX ->
  service_calls n w
  = mkWorld WIFISTATE_DISCOWAIT (wifiWaitSecondCounter w + Z.of_nat n)
            (wifissid w) (wifipwd w) (associated w) (polls w) (trace w).
Proof.
  intros Hst Hc0. unfold WIFIDISCOWAIT_MAX. induction n as [| n IH]; intros Hc.
  - destruct w; cbn in *. subst. rewrite Z.add_0_r. reflexivity.
  - rewrite wifi_calls_S, IH by lia.
    rewrite discowait_wait; cbn [wifiState wifiWaitSecondCounter wifissid wifipwd
                                  associated polls trace].
    + rewrite incr_small by (unfold Int.INT_MIN, Int.INT_MAX; lia). f_equal; lia.
    + reflexivity.
    + rewrite incr_small by (unfold Int.INT_MIN, Int.INT_MAX; lia). unfold WIFIDISCOWAIT_MAX. lia.
Qed.

(** *** The timed paths *)

(** C1: from state Connecting with the counter at 0, while the network layer
    never reports associated, calls 1 to 29 of [wifiService] leave the state
    Connecting and issue nothing; the 30th call moves the state to
    ErrorTimeout and issues [WiFi.disconnect()] (and the time-out log line);
    none of the 58 calls after it leaves ErrorTimeout or issues anything. *)
Theorem C1_connect_timeout_boundary :
  forall w : World,
    wifiState w = WIFISTATE_CONNECTING ->
    wifiWaitSecondCounter w = 0 ->
    (forall k, associated w k = false) ->
    (forall n, (n < 30)%nat ->
       wifiState (service_calls n w) = WIFISTATE_CONNECTING /\
       trace (service_calls n w) = trace w) /\
    wifiState (service_calls 30 w) = WIFISTATE_ERRORTIMEOUT /\
    trace (service_calls 30 w) = trace w ++ [WiFi_disconnect; WIFILOG "WiFi connection timed-out"] /\
    (forall n, (30 <= n < 89)%nat ->
       wifiState (service_calls n w) = WIFISTATE_ERRORTIMEOUT /\
       trace (service_calls n w) = trace (service_calls 30 w)).
Proof.
  intros w Hst Hc Ha.
  assert (Hwait : forall n, (n < 30)%nat ->
            service_calls n w
            = mkWorld WIFISTATE_CONNECTING (Z.of_nat n) (wifissid w) (wifipwd w)
                      (associated w) (polls w + n) (trace w)).
  { intros n Hn. rewrite connecting_wait_n, Hc; unfold WIFIWAIT_MAX; try lia; auto. }
  assert (H30 : service_calls 30 w
                = mkWorld WIFISTATE_ERRORTIMEOUT 1 (wifissid w) (wifipwd w)
                          (associated w) (S (polls w + 29)) (trace w ++ timeout_events)).
  { rewrite wifi_calls_S, (Hwait 29%nat) by lia.
    rewrite connecting_timeout; [reflexivity | reflexivity | apply Ha |].
    cbn [wifiWaitSecondCounter]. rewrite incr_small by (unfold Int.INT_MIN, Int.INT_MAX; lia).
    unfold WIFIWAIT_MAX. lia. }
  split; [| split; [| split]].
  - intros n Hn. rewrite (Hwait n Hn). split; reflexivity.
  - rewrite H30. reflexivity.
  - rewrite H30. reflexivity.
  - intros n Hn. replace n with ((n - 30) + 30)%nat by lia.
    rewrite wifi_calls_add, H30.
    rewrite errortimeout_wait_n; cbn [wifiState wifiWaitSecondCounter trace];
      unfold WIFIRECONNECT_MAX; try lia; auto.
Qed.

(** After [wifiConnect()] on a network that never associates. *)
Lemma C1_connect_timeout_boundary_witness :
  let w := exec wifiConnect (deaf WIFISTATE_DISCONNECTED 0) in
  wifiState (service_calls 29 w) = WIFISTATE_CONNECTING /\
  wifiState (service_calls 30 w) = WIFISTATE_ERRORTIMEOUT /\
  trace (service_calls 30 w)
  = trace w ++ [WiFi_disconnect; WIFILOG "WiFi connection timed-out"].
Proof.
  intros w.
  destruct (C1_connect_timeout_boundary w eq_refl eq_refl (fun _ => eq_refl))
    as (Hbefore & Hstate & Htrace & _).
  split; [apply Hbefore; lia |]. split; [exact Hstate | exact Htrace].
Defined.

(** C4: in state Connected, when the network layer reports not associated,
    the next call of [wifiService] moves the state to DisconnectWait with the
    counter at 0; each of the following 9 calls leaves the state
    DisconnectWait and issues nothing, and the 10th invokes [wifiConnect],
    which makes the state Connecting (counter 0) and issues the association
    request. *)
Theorem C4_spontaneous_disconnect :
  forall w : World,
    wifiState w = WIFISTATE_CONNECTED ->
    associated w (polls w) = false ->
    let w1 := exec wifiService w in
    wifiState w1 = WIFISTATE_DISCOWAIT /\
    wifiWaitSecondCounter w1 = 0 /\
    (forall n, (n < 10)%nat ->
       wifiState (service_calls n w1) = WIFISTATE_DISCOWAIT /\
       trace (service_calls n w1) = trace w1) /\
    wifiState (service_calls 10 w1) = WIFISTATE_CONNECTING /\
    wifiWaitSecondCounter (service_calls 10 w1) = 0 /\
    trace (service_calls 10 w1)
    = trace w1 ++ [WiFi_mode_STA; WiFi_begin (wifissid w) (wifipwd w);
                   WIFILOG "Wifi connection initiated"].
Proof.
  intros w Hst Ha w1. subst w1. rewrite (connected_drop w Hst Ha).
  set (w1 := mkWorld _ _ _ _ _ _ _).
  assert (Hwait : forall n, (n < 10)%nat ->
            service_calls n w1
            = mkWorld WIFISTATE_DISCOWAIT (Z.of_nat n) (wifissid w) (wifipwd w)
                      (associated w) (S (polls w)) (trace w1)).
  { intros n Hn. rewrite discowait_wait_n; subst w1;
      cbn [wifiState wifiWaitSecondCounter]; unfold WIFIDISCOWAIT_MAX; try lia; auto. }
  assert (H10 : service_calls 10 w1
                = mkWorld WIFISTATE_CONNECTING 0 (wifissid w) (wifipwd w)
                          (associated w) (S (polls w)) (trace w1 ++ connect_events w)).
  { rewrite wifi_calls_S, (Hwait 9%nat) by lia.
    rewrite discowait_reconnect; [reflexivity | reflexivity |].
    cbn [wifiWaitSecondCounter]. rewrite incr_small by (unfold Int.INT_MIN, Int.INT_MAX; lia).
    unfold WIFIDISCOWAIT_MAX. lia. }
  split; [reflexivity |]. split; [reflexivity |].
  split; [| rewrite H10; repeat split; reflexivity].
  intros n Hn. rewrite (Hwait n Hn). split; reflexivity.
Qed.

(** A connected world whose network has gone away. *)
Lemma C4_spontaneous_disconnect_witness :
  let w1 := exec wifiService (deaf WIFISTATE_CONNECTED 0) in
  wifiState w1 = WIFISTATE_DISCOWAIT /\
  wifiState (service_calls 9 w1) = WIFISTATE_DISCOWAIT /\
  wifiState (service_calls 10 w1) = WIFISTATE_CONNECTING.
Proof.
  intros w1.
  destruct (C4_spontaneous_disconnect (deaf WIFISTATE_CONNECTED 0) eq_refl eq_refl)
    as (H1 & _ & Hwait & H10 & _).
  split; [exact H1 |]. split; [apply Hwait; lia | exact H10].
Defined.

(** C6: from state ErrorTimeout with the counter at 0, each of the first 59
    calls of [wifiService] leaves the state ErrorTimeout and issues nothing,
    and the 60th invokes [wifiConnect], which makes the state Connecting
    (counter 0) and issues the association request. *)
Theorem C6_reconnect_after_backoff :
  forall w : World,
    wifiState w = WIFISTATE_ERRORTIMEOUT ->
    wifiWaitSecondCounter w = 0 ->
    (forall n, (n < 60)%nat ->
       wifiState (service_calls n w) = WIFISTATE_ERRORTIMEOUT /\
       trace (service_calls n w) = trace w) /\
    wifiState (service_calls 60 w) = WIFISTATE_CONNECTING /\
    wifiWaitSecondCounter (service_calls 60 w) = 0 /\
    trace (service_calls 60 w)
    = trace w ++ [WiFi_mode_STA; WiFi_begin (wifissid w) (wifipwd w);
                  WIFILOG "Wifi connection initiated"].
Proof.
  intros w Hst Hc.
  assert (Hwait : forall n, (n < 60)%nat ->
            service_calls n w
            = mkWorld WIFISTATE_ERRORTIMEOUT (Z.of_nat n) (wifissid w) (wifipwd w)
                      (associated w) (polls w) (trace w)).
  { intros n Hn. rewrite errortimeout_wait_n, Hc; unfold WIFIRECONNECT_MAX; try lia; auto. }
  split.
  - intros n Hn. rewrite (Hwait n Hn). split; reflexivity.
  - rewrite wifi_calls_S, (Hwait 59%nat) by lia.
    rewrite errortimeout_reconnect; [repeat split; reflexivity | reflexivity |].
    cbn [wifiWaitSecondCounter]. rewrite incr_small by (unfold Int.INT_MIN, Int.INT_MAX; lia).
    unfold WIFIRECONNECT_MAX. lia.
Qed.

(** ErrorTimeout with the counter at 0. *)
Lemma C6_reconnect_after_backoff_witness :
  let w := deaf WIFISTATE_ERRORTIMEOUT 0 in
  wifiState (service_calls 59 w) = WIFISTATE_ERRORTIMEOUT /\
  wifiState (service_calls 60 w) = WIFISTATE_CONNECTING.
Proof.
  intros w.
  destruct (C6_reconnect_after_backoff w eq_refl eq_refl) as (Hwait & H60 & _).
  split; [apply Hwait; lia | exact H60].
Defined.

(** C10: a call of [wifiService] that takes the time-out branch (state
    Connecting, network not associated, incremented counter at least 30) also
    runs the ErrorTimeout branch, so it ends in ErrorTimeout with the counter
    at 1; each of the next 58 calls leaves the state ErrorTimeout and issues
    nothing, and the 59th call after the one that timed out invokes
    [wifiConnect]. *)
Theorem C10_timeout_call_counts_as_first_backoff_second :
  forall w : World,
    wifiState w = WIFISTATE_CONNECTING ->
    associated w (polls w) = false ->
    WIFIWAIT_MAX <= Int.incr (wifiWaitSecondCounter w) ->
    let w1 := exec wifiService w in
    wifiState w1 = WIFISTATE_ERRORTIMEOUT /\
    wifiWaitSecondCounter w1 = 1 /\
    trace w1 = trace w ++ [WiFi_disconnect; WIFILOG "WiFi connection timed-out"] /\
    (forall n, (n < 59)%nat ->
       wifiState (service_calls n w1) = WIFISTATE_ERRORTIMEOUT /\
       trace (service_calls n w1) = trace w1) /\
    wifiState (service_calls 59 w1) = WIFISTATE_CONNECTING /\
    trace (service_calls 59 w1)
    = trace w1 ++ [WiFi_mode_STA; WiFi_begin (wifissid w) (wifipwd w);
                   WIFILOG "Wifi connection initiated"].
Proof.
  intros w Hst Ha Hc w1. subst w1. rewrite (connecting_timeout w Hst Ha Hc).
  set (w1 := mkWorld _ _ _ _ _ _ _).
  assert (Hwait : forall n, (n < 59)%nat ->
            service_calls n w1
            = mkWorld WIFISTATE_ERRORTIMEOUT (1 + Z.of_nat n) (wifissid w) (wifipwd w)
                      (associated w) (S (polls w)) (trace w1)).
  { intros n Hn. rewrite errortimeout_wait_n; subst w1;
      cbn [wifiState wifiWaitSecondCounter]; unfold WIFIRECONNECT_MAX; try lia; auto. }
  split; [reflexivity |]. split; [reflexivity |]. split; [reflexivity |].
  split.
  - intros n Hn. rewrite (Hwait n Hn). split; reflexivity.
  - rewrite wifi_calls_S, (Hwait 58%nat) by lia.
    rewrite errortimeout_reconnect; [split; reflexivity | reflexivity |].
    cbn [wifiWaitSecondCounter]. rewrite incr_small by (unfold Int.INT_MIN, Int.INT_MAX; lia).
    unfold WIFIRECONNECT_MAX. lia.
Qed.

(** The 30th second of a connection attempt. *)
Lemma C10_timeout_call_counts_as_first_backoff_second_witness :
  let w1 := exec wifiService (deaf WIFISTATE_CONNECTING 29) in
  wifiState w1 = WIFISTATE_ERRORTIMEOUT /\
  wifiWaitSecondCounter w1 = 1 /\
  wifiState (service_calls 58 w1) = WIFISTATE_ERRORTIMEOUT /\
  wifiState (service_calls 59 w1) = WIFISTATE_CONNECTING.
Proof.
  intros w1.
  assert (Hc : WIFIWAIT_MAX <= Int.incr (wifiWaitSecondCounter (deaf WIFISTATE_CONNECTING 29))).
  { vm_compute. discriminate. }
  destruct (C10_timeout_call_counts_as_first_backoff_second
              (deaf WIFISTATE_CONNECTING 29) eq_refl eq_refl Hc)
    as (H1 & Hc1 & _ & Hwait & H59 & _).
  split; [exact H1 |]. split; [exact Hc1 |].
  split; [apply Hwait; lia | exact H59].
Defined.

(** *** The counter across one operation *)

(** [wifiConnect] and [wifiDisconnect] leave the counter at 0. *)
Lemma connect_disconnect_counter (w : World) :
  wifiWaitSecondCounter (exec wifiConnect w) = 0 /\
  wifiWaitSecondCounter (exec wifiDisconnect w) = 0.
Proof. split; reflexivity. Qed.

(** A call of [wifiService] that changes the state ends with the counter at 0,
    except the call that times out of Connecting, which ends with it at 1. *)
Lemma service_transition_counter (w : World) :
  wifiState (exec wifiService w) <> wifiState w ->
  wifiWaitSecondCounter (exec wifiService w) = 0 \/
  (wifiState w = WIFISTATE_CONNECTING /\
   wifiState (exec wifiService w) = WIFISTATE_ERRORTIMEOUT /\
   wifiWaitSecondCounter (exec wifiService w) = 1).
Proof.
  destruct w as [st c ssid pwd a p tr].
  wifi_unfold. split_state st; wifi_run.
  all: repeat (branch; wifi_run); fresh_counter; wifi_run.
  all: try (intros _; left; reflexivity).
  all: try (intros H; exfalso; apply H; reflexivity).
  all: intros _; right; repeat split; reflexivity.
Qed.

(** From a counter that is not negative, the counter grows only across a call
    of [wifiService] that begins and ends in the same state, one of
    Connecting, DisconnectWait and ErrorTimeout. *)
Lemma service_counter_grows (w : World) :
  0 <= wifiWaitSecondCounter w ->
  wifiWaitSecondCounter w < wifiWaitSecondCounter (exec wifiService w) ->
  wifiState (exec wifiService w) = wifiState w /\
  (wifiState w = WIFISTATE_CONNECTING \/ wifiState w = WIFISTATE_DISCOWAIT \/
   wifiState w = WIFISTATE_ERRORTIMEOUT).
Proof.
  destruct w as [st c ssid pwd a p tr].
  wifi_unfold. intros Hc. split_state st; wifi_run.
  all: repeat (branch; wifi_run); fresh_counter; wifi_run.
  all: try (intros H; exfalso; lia).
  all: try (intros _; split; [reflexivity | tauto]).
  (* the time-out call: the counter would have to be 0 before it *)
  intros H. assert (c = 0) by lia. subst c. discriminate.
Qed.

(** C7 fails on the time-out path: connect, then 29 calls of [wifiService]
    with the network never associated, reach state Connecting with the counter
    at 29; the next call changes the state (to ErrorTimeout) and ends with the
    counter at 1, not 0. *)
Theorem C7_counter_after_timeout_transition :
  let w29 := service_calls 29 (exec wifiConnect (deaf WIFISTATE_DISCONNECTED 0)) in
  let w30 := exec wifiService w29 in
  wifiState w29 = WIFISTATE_CONNECTING /\
  wifiWaitSecondCounter w29 = 29 /\
  wifiState w30 = WIFISTATE_ERRORTIMEOUT /\
  wifiState w30 <> wifiState w29 /\
  wifiWaitSecondCounter w30 = 1 /\
  wifiWaitSecondCounter w30 <> 0.
Proof.
  vm_compute. repeat split; discriminate.
Qed.

End WiFiSpec.

(** * Properties of the time-sync state machine *)
Module NTPSpec.
Import NTP.

(** Runs the monadic code of the header on a world given field by field. *)
Ltac ntp_run :=
  cbv [exec bind gets ret when modify fst snd
       ntpService ntpStart ntpInit schedulerInit rtc Serial_println_rtc
       rtc_setTime timeClient_update timeClient_getEpochTime
       set_ntpState set_ntpWaitSecondCounter set_ntpAttempts set_ntpSuccess
       set_sched emit preincr_ntpWaitSecondCounter incr_ntpAttempts
       ntpState ntpWaitSecondCounter ntpAttempts ntpSuccess sched
       rtc_epoch rtc_fields update_ok epochTime updates trace
       NTPSTATE_IDLE NTPSTATE_STARTED NTPSTATE_COMPLETE NTPSTATE_TIMEOUTERROR
       NTPWAIT_MAX Z.eqb Pos.eqb].

(** *** One call of [ntpService], branch by branch *)

Lemma started_success (w : World) :
  ntpState w = NTPSTATE_STARTED -> update_ok w (updates w) = true ->
  let epoch := epochTime w (S (updates w)) in
  exec ntpService w
  = mkWorld NTPSTATE_COMPLETE (ntpWaitSecondCounter w) (Int.incr (ntpAttempts w)) true
            (Scheduler.schedulerInit (rtc_fields w epoch) (sched w))
            epoch (rtc_fields w) (update_ok w) (epochTime w) (S (updates w))
            (trace w ++ [Serial_println_rtc_getTime "NTP->RTC=%Y/%m/%d,%H:%M:%S" epoch;
                         Call_schedulerInit]).
Proof.
  destruct w as [st c n ok sch e f u et k tr]. ntp_run. intros -> Hu.
  ntp_run. rewrite Hu. rewrite <- app_assoc. reflexivity.
Qed.

Lemma started_wait (w : World) :
  ntpState w = NTPSTATE_STARTED -> update_ok w (updates w) = false ->
  Int.incr (ntpWaitSecondCounter w) < NTPWAIT_MAX ->
  exec ntpService w
  = mkWorld NTPSTATE_STARTED (Int.incr (ntpWaitSecondCounter w)) (ntpAttempts w)
            (ntpSuccess w) (sched w) (rtc_epoch w) (rtc_fields w)
            (update_ok w) (epochTime w) (S (updates w))
            (trace w ++ [TimeClient_forceUpdate]).
Proof.
  destruct w as [st c n ok sch e f u et k tr]. ntp_run. intros -> Hu Hc.
  ntp_run. rewrite Hu, (geb_false _ _ Hc). reflexivity.
Qed.

Lemma started_timeout (w : World) :
  ntpState w = NTPSTATE_STARTED -> update_ok w (updates w) = false ->
  NTPWAIT_MAX <= Int.incr (ntpWaitSecondCounter w) ->
  exec ntpService w
  = mkWorld NTPSTATE_TIMEOUTERROR (Int.incr (ntpWaitSecondCounter w)) (ntpAttempts w)
            false (sched w) (rtc_epoch w) (rtc_fields w)
            (update_ok w) (epochTime w) (S (updates w))
            (trace w ++ [TimeClient_forceUpdate]).
Proof.
  destruct w as [st c n ok sch e f u et k tr]. ntp_run. intros -> Hu Hc.
  ntp_run. rewrite Hu, (geb_true _ _ Hc). reflexivity.
Qed.

(** Outside Started, [ntpService] does nothing at all. *)
Lemma not_started_idle (w : World) :
  ntpState w <> NTPSTATE_STARTED -> exec ntpService w = w.
Proof.
  destruct w as [st c n ok sch e f u et k tr]. cbn [ntpState]. intros Hst.
  unfold exec, ntpService, bind, gets, when. cbn [ntpState fst snd].
  apply Z.eqb_neq in Hst. rewrite Hst. reflexivity.
Qed.

Lemma ntp_calls_S (n : nat) (w : World) :
  service_calls (S n) w = exec ntpService (service_calls n w).
Proof. reflexivity. Qed.

Lemma ntp_calls_add (m n : nat) (w : World) :
  service_calls (m + n) w = service_calls m (service_calls n w).
Proof. unfold service_calls. apply Nat.iter_add. Qed.

Lemma not_started_idle_n (n : nat) (w : World) :
  ntpState w <> NTPSTATE_STARTED -> service_calls n w = w.
Proof.
  intros Hst. induction n as [| n IH]; [reflexivity |].
  rewrite ntp_calls_S, IH. apply not_started_idle. exact Hst.
Qed.

(** Waiting in Started for [n] calls: one [forceUpdate()] per call. *)
Lemma started_wait_n (n : nat) (w : World) :
  ntpState w = NTPSTATE_STARTED ->
  (forall k, update_ok w k = false) ->
  0 <= ntpWaitSecondCounter w ->
  ntpWaitSecondCounter w + Z.of_nat n < NTPWAIT_MAX ->
  service_calls n w
  = mkWorld NTPSTATE_STARTED (ntpWaitSecondCounter w + Z.of_nat n) (ntpAttempts w)
            (ntpSuccess w) (sched w) (rtc_epoch w) (rtc_fields w)
            (update_ok w) (epochTime w) (updates w + n)
            (trace w ++ repeat TimeClient_forceUpdate n).
Proof.
  intros Hst Hu Hc0. unfold NTPWAIT_MAX. induction n as [| n IH]; intros Hc.
  - destruct w; cbn in *. subst.
    rewrite Z.add_0_r, Nat.add_0_r, app_nil_r. reflexivity.
  - rewrite ntp_calls_S, IH by lia.
    rewrite started_wait;
      cbn [ntpState ntpWaitSecondCounter ntpAttempts ntpSuccess sched rtc_epoch
           rtc_fields update_ok epochTime updates trace].
    + rewrite incr_small by (unfold Int.INT_MIN, Int.INT_MAX; lia).
      rewrite <- app_assoc, <- repeat_cons.
      f_equal; [lia | rewrite Nat.add_succ_r; reflexivity].
    + reflexivity.
    + apply Hu.
    + rewrite incr_small by (unfold Int.INT_MIN, Int.INT_MAX; lia). unfold NTPWAIT_MAX. lia.
Qed.

(** C2: in state Started, when [timeClient.update()] succeeds, that one call
    of [ntpService] sets the clock to the epoch the client returns, enters
    [schedulerInit()] exactly once (which reloads the four detector globals
    from the clock just set), sets [ntpSuccess], moves to Complete, and
    increments [ntpAttempts]: by exactly 1 while it is below the largest
    [int]. *)
Theorem C2_sync_success :
  forall w : World,
    ntpState w = NTPSTATE_STARTED ->
    update_ok w (updates w) = true ->
    let w' := exec ntpService w in
    let epoch := epochTime w (S (updates w)) in
    rtc_epoch w' = epoch /\
    hook_calls (trace w') = S (hook_calls (trace w)) /\
    sched w' = Scheduler.schedulerInit (rtc_fields w epoch) (sched w) /\
    ntpSuccess w' = true /\
    ntpAttempts w' = Int.incr (ntpAttempts w) /\
    (Int.INT_MIN <= ntpAttempts w < Int.INT_MAX -> ntpAttempts w' = ntpAttempts w + 1) /\
    ntpState w' = NTPSTATE_COMPLETE.
Proof.
  intros w Hst Hu w' epoch. subst w'. rewrite (started_success w Hst Hu).
  fold epoch.
  cbn [ntpState ntpAttempts ntpSuccess sched rtc_epoch trace].
  repeat split.
  - unfold hook_calls. rewrite filter_app, length_app. cbn. lia.
  - intros Hn. apply incr_small. exact Hn.
Qed.

(** [ntpStart()], then a call answered by a client that has the time. *)
Lemma C2_sync_success_witness :
  let w' := exec ntpService (exec ntpStart (sample true)) in
  rtc_epoch w' = 1700000000 /\ hook_calls (trace w') = 1%nat /\
  ntpSuccess w' = true /\ ntpAttempts w' = 3 /\ ntpState w' = NTPSTATE_COMPLETE.
Proof.
  intros w'.
  destruct (C2_sync_success (exec ntpStart (sample true)) eq_refl eq_refl)
    as (Hclock & Hhook & _ & Hok & _ & Hcount & Hst).
  split; [exact Hclock |]. split; [exact Hhook |]. split; [exact Hok |].
  split; [| exact Hst].
  apply Hcount. vm_compute. split; [discriminate | reflexivity].
Defined.

(** C5: in state Started with the counter at 0 (as [ntpStart] leaves it) and
    a client whose [update()] never succeeds, the first 29 calls of
    [ntpService] leave the state Started; the 30th moves to TimeoutError with
    [ntpSuccess] false; [ntpAttempts] keeps its value throughout; and in
    TimeoutError [ntpService] changes nothing, so every later call leaves the
    world as the 30th left it. *)
Theorem C5_sync_timeout :
  forall w : World,
    ntpState w = NTPSTATE_STARTED ->
    ntpWaitSecondCounter w = 0 ->
    (forall k, update_ok w k = false) ->
    (forall n, (n < 30)%nat ->
       ntpState (service_calls n w) = NTPSTATE_STARTED /\
       ntpAttempts (service_calls n w) = ntpAttempts w) /\
    ntpState (service_calls 30 w) = NTPSTATE_TIMEOUTERROR /\
    ntpSuccess (service_calls 30 w) = false /\
    ntpAttempts (service_calls 30 w) = ntpAttempts w /\
    (forall n, (30 <= n)%nat -> service_calls n w = service_calls 30 w) /\
    (forall w' : World, ntpState w' = NTPSTATE_TIMEOUTERROR -> exec ntpService w' = w').
Proof.
  intros w Hst Hc Hu.
  assert (Hwait : forall n, (n < 30)%nat ->
            service_calls n w
            = mkWorld NTPSTATE_STARTED (Z.of_nat n) (ntpAttempts w)
                      (ntpSuccess w) (sched w) (rtc_epoch w) (rtc_fields w)
                      (update_ok w) (epochTime w) (updates w + n)
                      (trace w ++ repeat TimeClient_forceUpdate n)).
  { intros n Hn. rewrite started_wait_n, Hc; unfold NTPWAIT_MAX; try lia; auto. }
  assert (H30 : service_calls 30 w
                = mkWorld NTPSTATE_TIMEOUTERROR 30 (ntpAttempts w)
                          false (sched w) (rtc_epoch w) (rtc_fields w)
                          (update_ok w) (epochTime w) (S (updates w + 29))
                          (trace w ++ repeat TimeClient_forceUpdate 30)).
  { rewrite ntp_calls_S, (Hwait 29%nat) by lia.
    rewrite started_timeout;
      cbn [ntpState ntpWaitSecondCounter ntpAttempts ntpSuccess sched rtc_epoch
           rtc_fields update_ok epochTime updates trace].
    - rewrite <- app_assoc, <- repeat_cons. reflexivity.
    - reflexivity.
    - apply Hu.
    - vm_compute. discriminate. }
  split; [| split; [| split; [| split; [| split]]]].
  - intros n Hn. rewrite (Hwait n Hn). split; reflexivity.
  - rewrite H30. reflexivity.
  - rewrite H30. reflexivity.
  - rewrite H30. reflexivity.
  - intros n Hn. replace n with ((n - 30) + 30)%nat by lia.
    rewrite ntp_calls_add. apply not_started_idle_n.
    rewrite H30. discriminate.
  - intros w' Hw'. apply not_started_idle. rewrite Hw'. discriminate.
Qed.

(** [ntpStart()], then calls answered by a client that never has the time. *)
Lemma C5_sync_timeout_witness :
  let w := exec ntpStart (sample false) in
  ntpState (service_calls 29 w) = NTPSTATE_STARTED /\
  ntpState (service_calls 30 w) = NTPSTATE_TIMEOUTERROR /\
  ntpSuccess (service_calls 30 w) = false /\
  ntpAttempts (service_calls 30 w) = 2 /\
  service_calls 100 w = service_calls 30 w.
Proof.
  intros w.
  destruct (C5_sync_timeout w eq_refl eq_refl (fun _ => eq_refl))
    as (Hwait & Hst & Hok & Hcount & Hstay & _).
  assert (H29 : (29 < 30)%nat) by lia.
  assert (H100 : (30 <= 100)%nat) by lia.
  split; [exact (proj1 (Hwait 29%nat H29)) |].
  split; [exact Hst |]. split; [exact Hok |].
  split; [exact Hcount | exact (Hstay 100%nat H100)].
Defined.

End NTPSpec.

(** * Further properties of the connectivity state machine *)
Module WiFiMore.
Import WiFi WiFiOps WiFiSpec.

(** Turns boolean comparisons into propositions. *)
Ltac bool_to_prop :=
  repeat match goal with
         | H : (_ && _) = true |- _ => apply andb_true_iff in H; destruct H
         | H : (_ <=? _) = true |- _ => apply Z.leb_le in H
         | H : (_ <? _) = true |- _ => apply Z.ltb_lt in H
         | H : (_ >=? _) = true |- _ => rewrite Z.geb_leb in H; apply Z.leb_le in H
         | H : (_ >=? _) = false |- _ => rewrite Z.geb_leb in H; apply Z.leb_gt in H
         | |- (_ && _) = true => apply andb_true_iff; split
         | |- (_ <=? _) = true => apply Z.leb_le
         | |- (_ <? _) = true => apply Z.ltb_lt
         end.

Lemma well_formed_service (w : World) :
  well_formed w = true -> well_formed (exec wifiService w) = true.
Proof.
  destruct w as [st c ssid pwd a p tr]. unfold well_formed.
  cbn [wifiState wifiWaitSecondCounter]. intros H.
  assert (Hst : 0 <= st <= 4).
  { unfold WIFISTATE_DISCONNECTED, WIFISTATE_ERRORTIMEOUT in H. bool_to_prop. lia. }
  assert (Hc : 0 <= c < 60).
  { revert H. unfold wait_limit. wifi_unfold.
    repeat branch; intros H; bool_to_prop; lia. }
  assert (Hlim : c < wait_limit st) by (bool_to_prop; assumption).
  clear H. revert Hlim. unfold wait_limit. wifi_unfold.
  split_state st; wifi_run; intros Hlim.
  all: repeat (rewrite ?(incr_small c) by (unfold Int.INT_MIN, Int.INT_MAX; lia);
               fresh_counter; branch; wifi_run).
  all: rewrite ?(incr_small c) by (unfold Int.INT_MIN, Int.INT_MAX; lia).
  all: try reflexivity.
  all: try (exfalso; lia).
  all: bool_to_prop; lia.
Qed.

Lemma well_formed_step (o : Op) (w : World) :
  well_formed w = true -> well_formed (exec (step o) w) = true.
Proof.
  destruct o; cbn [step].
  - intros _. reflexivity.
  - intros _. reflexivity.
  - intros _. reflexivity.
  - apply well_formed_service.
Qed.

Lemma well_formed_run (ops : list Op) :
  forall w : World, well_formed w = true -> well_formed (run ops w) = true.
Proof.
  induction ops as [| o ops IH]; intros w Hw.
  - exact Hw.
  - cbn [run fold_left]. apply IH. apply well_formed_step. exact Hw.
Qed.

Lemma well_formed_counter (w : World) :
  well_formed w = true ->
  0 <= wifiWaitSecondCounter w < WIFIRECONNECT_MAX.
Proof.
  destruct w as [st c ssid pwd a p tr]. unfold well_formed, wait_limit.
  wifi_unfold. repeat branch; intros H; bool_to_prop; lia.
Qed.

(** X1: after [wifiInit], whatever sequence of [wifiInit], [wifiConnect],
    [wifiDisconnect] and [wifiService] calls follows, the state is one of the
    five constants and the counter is at least 0 and below the bound of the
    state, hence below 60: the increments of the header never overflow. *)
Theorem reachable_well_formed :
  forall (ops : list Op) (w0 : World),
    let w := run ops (exec wifiInit w0) in
    well_formed w = true /\
    0 <= wifiWaitSecondCounter w < WIFIRECONNECT_MAX /\
    Int.incr (wifiWaitSecondCounter w) = wifiWaitSecondCounter w + 1.
Proof.
  intros ops w0 w.
  assert (Hw : well_formed w = true) by (apply well_formed_run; reflexivity).
  pose proof (well_formed_counter w Hw) as Hc. unfold WIFIRECONNECT_MAX in Hc.
  split; [exact Hw |]. split; [exact Hc |].
  apply incr_small. unfold Int.INT_MIN, Int.INT_MAX. lia.
Qed.

(** *** States in which nothing is pending *)

Lemma disconnected_idle (w : World) :
  wifiState w = WIFISTATE_DISCONNECTED -> exec wifiService w = w.
Proof.
  destruct w as [st c ssid pwd a p tr]. wifi_run. intros ->. reflexivity.
Qed.

(** X2: in state Disconnected, as [wifiInit] and [wifiDisconnect] leave it,
    any number of [wifiService] calls changes nothing: no transition, no
    query of the network layer, nothing issued. *)
Theorem disconnected_stays :
  forall (n : nat) (w : World),
    wifiState w = WIFISTATE_DISCONNECTED -> service_calls n w = w.
Proof.
  intros n w Hst. induction n as [| n IH]; [reflexivity |].
  rewrite wifi_calls_S, IH. apply disconnected_idle. exact Hst.
Qed.

(** After [wifiDisconnect()] from the middle of a connection attempt. *)
Lemma disconnected_stays_witness :
  let w := exec wifiDisconnect (deaf WIFISTATE_CONNECTING 12) in
  trace w = [WiFi_disconnect; WIFILOG "Wifi disconnect"] /\ service_calls 500 w = w.
Proof.
  intros w. split; [reflexivity |].
  exact (disconnected_stays 500 w eq_refl).
Defined.

Lemma connected_poll (w : World) :
  wifiState w = WIFISTATE_CONNECTED -> associated w (polls w) = true ->
  exec wifiService w
  = mkWorld WIFISTATE_CONNECTED (wifiWaitSecondCounter w)
            (wifissid w) (wifipwd w) (associated w) (S (polls w)) (trace w).
Proof.
  destruct w as [st c ssid pwd a p tr]. wifi_run. intros -> Ha.
  wifi_run. rewrite Ha. reflexivity.
Qed.

(** X3: in state Connected, as long as the network layer reports
    associated, every [wifiService] call queries it once and changes nothing
    else. *)
Theorem connected_stays :
  forall (n : nat) (w : World),
    wifiState w = WIFISTATE_CONNECTED ->
    (forall k, (polls w <= k < polls w + n)%nat -> associated w k = true) ->
    service_calls n w
    = mkWorld WIFISTATE_CONNECTED (wifiWaitSecondCounter w)
              (wifissid w) (wifipwd w) (associated w) (polls w + n) (trace w).
Proof.
  intros n w Hst. induction n as [| n IH]; intros Ha.
  - destruct w; cbn in *. subst. rewrite Nat.add_0_r. reflexivity.
  - rewrite wifi_calls_S, IH by (intros k Hk; apply Ha; lia).
    rewrite connected_poll; cbn [wifiState wifiWaitSecondCounter wifissid wifipwd
                                  associated polls trace].
    + rewrite Nat.add_succ_r. reflexivity.
    + reflexivity.
    + apply Ha. lia.
Qed.

(** A connected world whose network stays up. *)
Lemma connected_stays_witness :
  service_calls 40 (mkWorld WIFISTATE_CONNECTED 0 "net" "pw" (fun _ => true) 3 [])
  = mkWorld WIFISTATE_CONNECTED 0 "net" "pw" (fun _ => true) 43 [].
Proof.
  exact (connected_stays 40 (mkWorld WIFISTATE_CONNECTED 0 "net" "pw" (fun _ => true) 3 [])
           eq_refl (fun _ _ => eq_refl)).
Defined.

(** X4: a [wifiService] call in state Connecting that finds the network
    associated queries it a second time in the same call (the test of the
    Connected state follows): it ends in Connected when the second answer is
    associated too, and in DisconnectWait, with the loss already logged, when
    it is not.  The counter is 0 either way. *)
Theorem connecting_success :
  forall w : World,
    wifiState w = WIFISTATE_CONNECTING ->
    associated w (polls w) = true ->
    exec wifiService w
    = if associated w (S (polls w))
      then mkWorld WIFISTATE_CONNECTED 0 (wifissid w) (wifipwd w) (associated w)
                   (S (S (polls w))) (trace w ++ connected_events)
      else mkWorld WIFISTATE_DISCOWAIT 0 (wifissid w) (wifipwd w) (associated w)
                   (S (S (polls w))) (trace w ++ connected_events ++ dropped_events).
Proof.
  destruct w as [st c ssid pwd a p tr]. wifi_run. intros -> Ha.
  wifi_run. rewrite Ha. unfold connected_events, dropped_events.
  destruct (a (S p)); rewrite <- ?app_assoc; reflexivity.
Qed.

(** A network that answers associated once and then not. *)
Lemma connecting_success_witness :
  let flicker := mkWorld WIFISTATE_CONNECTING 4 "net" "pw" (fun k => Nat.eqb k 0) 0 [] in
  let steady := mkWorld WIFISTATE_CONNECTING 4 "net" "pw" (fun _ => true) 0 [] in
  wifiState (exec wifiService flicker) = WIFISTATE_DISCOWAIT /\
  wifiState (exec wifiService steady) = WIFISTATE_CONNECTED.
Proof.
  intros flicker steady. split.
  - rewrite (connecting_success flicker eq_refl eq_refl). reflexivity.
  - rewrite (connecting_success steady eq_refl eq_refl). reflexivity.
Defined.

(** *** The retry cycle *)

Lemma retry_cycle (w : World) :
  wifiState w = WIFISTATE_CONNECTING ->
  wifiWaitSecondCounter w = 0 ->
  (forall k, associated w k = false) ->
  service_calls 89 w
  = mkWorld WIFISTATE_CONNECTING 0 (wifissid w) (wifipwd w) (associated w)
            (polls w + 30) (trace w ++ timeout_events ++ connect_events w).
Proof.
  intros Hst Hc Ha.
  assert (H29 : service_calls 29 w
                = mkWorld WIFISTATE_CONNECTING 29 (wifissid w) (wifipwd w)
                          (associated w) (polls w + 29) (trace w)).
  { rewrite connecting_wait_n, Hc; unfold WIFIWAIT_MAX; auto; lia. }
  assert (H30 : service_calls 30 w
                = mkWorld WIFISTATE_ERRORTIMEOUT 1 (wifissid w) (wifipwd w)
                          (associated w) (S (polls w + 29)) (trace w ++ timeout_events)).
  { rewrite (wifi_calls_S 29), H29.
    rewrite connecting_timeout; [reflexivity | reflexivity | apply Ha |].
    vm_compute. discriminate. }
  change 89%nat with (S (58 + 30))%nat.
  rewrite (wifi_calls_S (58 + 30)), (wifi_calls_add 58 30), H30.
  rewrite errortimeout_wait_n
    by (cbn [wifiState wifiWaitSecondCounter]; unfold WIFIRECONNECT_MAX; auto; lia).
  cbn [wifiState wifiWaitSecondCounter wifissid wifipwd associated polls trace].
  rewrite errortimeout_reconnect;
    [| reflexivity | cbn [wifiWaitSecondCounter]; vm_compute; discriminate].
  cbn [wifissid wifipwd associated polls trace]. unfold connect_events.
  cbn [wifissid wifipwd]. rewrite <- app_assoc.
  f_equal. lia.
Qed.

(** X5: with a network layer that never reports associated, the machine
    never gives up: from Connecting with the counter at 0, every 89 calls of
    [wifiService] bring it back to Connecting with the counter at 0, having
    queried the network 30 times and issued one [WiFi.disconnect()] followed
    by one association request. *)
Theorem retry_forever :
  forall (k : nat) (w : World),
    wifiState w = WIFISTATE_CONNECTING ->
    wifiWaitSecondCounter w = 0 ->
    (forall i, associated w i = false) ->
    service_calls (89 * k) w
    = mkWorld WIFISTATE_CONNECTING 0 (wifissid w) (wifipwd w) (associated w)
              (polls w + 30 * k)
              (trace w ++ List.concat (repeat (timeout_events ++ connect_events w) k)).
Proof.
  induction k as [| k IH]; intros w Hst Hc Ha.
  - destruct w; cbn in *. subst. rewrite Nat.add_0_r, app_nil_r. reflexivity.
  - replace (89 * S k)%nat with (89 * k + 89)%nat by lia.
    rewrite wifi_calls_add, (retry_cycle w Hst Hc Ha).
    rewrite IH by (cbn; auto).
    cbn [wifissid wifipwd associated polls trace repeat List.concat].
    unfold connect_events. cbn [wifissid wifipwd].
    rewrite <- !app_assoc. f_equal. lia.
Qed.

(** Three rounds after [wifiConnect()]. *)
Lemma retry_forever_witness :
  let w := exec wifiConnect (deaf WIFISTATE_DISCONNECTED 0) in
  wifiState (service_calls 267 w) = WIFISTATE_CONNECTING /\
  polls (service_calls 267 w) = 90%nat.
Proof.
  intros w.
  pose proof (retry_forever 3 w eq_refl eq_refl (fun _ => eq_refl)) as H.
  change (89 * 3)%nat with 267%nat in H. rewrite H. split; reflexivity.
Defined.

(** *** What one call sends to the network layer *)

(** X6: the events of one [wifiService] call are appended to the trace.
    When [WiFi.disconnect()] is among them, the call has timed out of
    Connecting into ErrorTimeout and its events are exactly the disconnect
    and the time-out log line.  When a [WiFi.begin] is among them, the call
    has left DisconnectWait or ErrorTimeout for Connecting and its events are
    exactly [WiFi.mode(WIFI_STA)], [WiFi.begin] with the stored credentials
    and the log line, in this order.  [WiFi.mode(WIFI_STA)] is never issued
    without that [WiFi.begin].  So in the states Disconnected and Connected
    the call sends the network layer nothing. *)
Theorem service_radio_commands :
  forall w : World,
    exists evs : list Event,
      trace (exec wifiService w) = trace w ++ evs /\
      (In WiFi_disconnect evs ->
       wifiState w = WIFISTATE_CONNECTING /\
       wifiState (exec wifiService w) = WIFISTATE_ERRORTIMEOUT /\
       evs = [WiFi_disconnect; WIFILOG "WiFi connection timed-out"]) /\
      (forall ssid pwd, In (WiFi_begin ssid pwd) evs ->
       (wifiState w = WIFISTATE_DISCOWAIT \/ wifiState w = WIFISTATE_ERRORTIMEOUT) /\
       wifiState (exec wifiService w) = WIFISTATE_CONNECTING /\
       ssid = wifissid w /\ pwd = wifipwd w /\
       evs = [WiFi_mode_STA; WiFi_begin (wifissid w) (wifipwd w);
              WIFILOG "Wifi connection initiated"]) /\
      (In WiFi_mode_STA evs -> In (WiFi_begin (wifissid w) (wifipwd w)) evs).
Proof.
  intros [st c ssid pwd a p tr].
  wifi_unfold. split_state st; wifi_run.
  all: repeat (fresh_counter; branch; wifi_run).
  all: rewrite <- ?app_assoc; cbn [app].
  all: first [ exists []; split; [symmetry; apply app_nil_r |]
             | eexists; split; [reflexivity |] ].
  all: cbn [In]; repeat apply conj; intros;
    repeat match goal with
           | H : _ \/ _ |- _ => destruct H
           | H : False |- _ => destruct H
           end;
    try discriminate; try reflexivity; try tauto; try congruence.
  all: repeat apply conj; try reflexivity; try congruence; auto.
Qed.

(** The call that times out of Connecting, and the call that ends a wait in
    DisconnectWait. *)
Lemma service_radio_commands_witness :
  (exists evs : list Event,
     trace (exec wifiService (deaf WIFISTATE_CONNECTING 29)) = evs /\
     evs = [WiFi_disconnect; WIFILOG "WiFi connection timed-out"] /\
     wifiState (exec wifiService (deaf WIFISTATE_CONNECTING 29)) = WIFISTATE_ERRORTIMEOUT) /\
  (exists evs : list Event,
     trace (exec wifiService (deaf WIFISTATE_DISCOWAIT 9)) = evs /\
     evs = [WiFi_mode_STA; WiFi_begin "net" "pw"; WIFILOG "Wifi connection initiated"]).
Proof.
  split.
  - destruct (service_radio_commands (deaf WIFISTATE_CONNECTING 29))
      as (evs & Htrace & Hdisc & _).
    exists evs. cbn [trace deaf app] in Htrace.
    assert (Hin : In WiFi_disconnect evs).
    { rewrite <- Htrace. left. reflexivity. }
    destruct (Hdisc Hin) as (_ & Hst & Hevs).
    split; [exact Htrace |]. split; [exact Hevs | exact Hst].
  - destruct (service_radio_commands (deaf WIFISTATE_DISCOWAIT 9))
      as (evs & Htrace & _ & Hbegin & _).
    exists evs. cbn [trace deaf app] in Htrace.
    assert (Hin : In (WiFi_begin "net" "pw") evs).
    { rewrite <- Htrace. right. left. reflexivity. }
    destruct (Hbegin "net"%string "pw"%string Hin) as (_ & _ & _ & _ & Hevs).
    split; [exact Htrace | exact Hevs].
Defined.

(** *** Bounded waits *)

(** X7: from DisconnectWait or ErrorTimeout with the counter within its
    bound, whatever the network layer answers, the state is kept for exactly
    (bound - counter - 1) calls of [wifiService] and the next call invokes
    [wifiConnect]: no wait lasts more than 60 calls. *)
Theorem wait_states_end :
  forall w : World,
    wifiState w = WIFISTATE_DISCOWAIT \/ wifiState w = WIFISTATE_ERRORTIMEOUT ->
    well_formed w = true ->
    let n := Z.to_nat (wait_limit (wifiState w) - wifiWaitSecondCounter w - 1) in
    (n < 60)%nat /\
    (forall m, (m <= n)%nat -> wifiState (service_calls m w) = wifiState w) /\
    wifiState (service_calls (S n) w) = WIFISTATE_CONNECTING /\
    wifiWaitSecondCounter (service_calls (S n) w) = 0 /\
    trace (service_calls (S n) w) = trace w ++ connect_events w.
Proof.
  intros w Hst Hw n. pose proof (well_formed_counter w Hw) as Hc.
  assert (Hlim : wifiWaitSecondCounter w < wait_limit (wifiState w)).
  { unfold well_formed in Hw. bool_to_prop. assumption. }
  unfold WIFIRECONNECT_MAX in Hc.
  assert (Hn : Z.of_nat n = wait_limit (wifiState w) - wifiWaitSecondCounter w - 1).
  { subst n. rewrite Z2Nat.id; lia. }
  clearbody n.
  destruct Hst as [Hst | Hst]; rewrite Hst in *;
    change (wait_limit WIFISTATE_DISCOWAIT) with 10 in *;
    change (wait_limit WIFISTATE_ERRORTIMEOUT) with 60 in *.
  - assert (Hwait : forall m, (m <= n)%nat ->
              service_calls m w
              = mkWorld WIFISTATE_DISCOWAIT (wifiWaitSecondCounter w + Z.of_nat m)
                        (wifissid w) (wifipwd w) (associated w) (polls w) (trace w)).
    { intros m Hm. apply discowait_wait_n; unfold WIFIDISCOWAIT_MAX; auto; lia. }
    split; [lia |]. split; [intros m Hm; rewrite (Hwait m Hm); reflexivity |].
    rewrite wifi_calls_S, (Hwait n) by lia.
    rewrite discowait_reconnect; [repeat split; reflexivity | reflexivity |].
    cbn [wifiWaitSecondCounter].
    rewrite incr_small by (unfold Int.INT_MIN, Int.INT_MAX; lia).
    unfold WIFIDISCOWAIT_MAX. lia.
  - assert (Hwait : forall m, (m <= n)%nat ->
              service_calls m w
              = mkWorld WIFISTATE_ERRORTIMEOUT (wifiWaitSecondCounter w + Z.of_nat m)
                        (wifissid w) (wifipwd w) (associated w) (polls w) (trace w)).
    { intros m Hm. apply errortimeout_wait_n; unfold WIFIRECONNECT_MAX; auto; lia. }
    split; [lia |]. split; [intros m Hm; rewrite (Hwait m Hm); reflexivity |].
    rewrite wifi_calls_S, (Hwait n) by lia.
    rewrite errortimeout_reconnect; [repeat split; reflexivity | reflexivity |].
    cbn [wifiWaitSecondCounter].
    rewrite incr_small by (unfold Int.INT_MIN, Int.INT_MAX; lia).
    unfold WIFIRECONNECT_MAX. lia.
Qed.

(** DisconnectWait with 6 seconds already counted: 3 more calls wait, the 4th
    reconnects. *)
Lemma wait_states_end_witness :
  let w := deaf WIFISTATE_DISCOWAIT 6 in
  wifiState (service_calls 3 w) = WIFISTATE_DISCOWAIT /\
  wifiState (service_calls 4 w) = WIFISTATE_CONNECTING.
Proof.
  intros w.
  destruct (wait_states_end w (or_introl eq_refl) eq_refl) as (_ & Hwait & Hend & _).
  split; [exact (Hwait 3%nat (le_n 3)) | exact Hend].
Defined.

End WiFiMore.

(** * Further properties of the calendar edge detectors *)
Module SchedulerMore.
Import Scheduler SchedulerSpec.

(** X8: a detector called twice on the same clock reading returns false the
    second time, whatever its global held before the first call (the
    sentinel included): no reading is reported twice. *)
Theorem same_reading_fires_once :
  forall d : Detector, In d detectors ->
    forall (rtc : Clock) (s : Baseline),
      detect d rtc (snd (detect d rtc s)) = (false, snd (detect d rtc s)).
Proof.
  intros d Hd rtc s. apply detect_unchanged; [exact Hd |].
  destruct s as [dd hh mm ss].
  repeat (destruct Hd as [<- | Hd];
          [cbn; unfold secondDetector, minuteDetector, hourDetector, dayDetector;
           cbn; repeat match goal with
                       | |- context [if ?b then _ else _] => destruct b eqn:?
                       end;
           cbn; try reflexivity;
           match goal with
           | H : (_ =? _) = true |- _ => apply Z.eqb_eq in H; exact H
           end |]).
  destruct Hd.
Qed.

(** Two calls of the day detector right after start-up, on the 9th. *)
Lemma same_reading_fires_once_witness :
  let rtc := mkClock 13 42 (fun _ => 7) 7 9 in
  fst (dayDetector rtc (snd (dayDetector rtc initial))) = false /\
  fst (secondDetector rtc (snd (secondDetector rtc initial))) = false.
Proof.
  intros rtc.
  assert (Hday : In day_d detectors) by (simpl; tauto).
  assert (Hsec : In second_d detectors) by (simpl; tauto).
  split.
  - exact (f_equal fst (same_reading_fires_once day_d Hday rtc initial)).
  - exact (f_equal fst (same_reading_fires_once second_d Hsec rtc initial)).
Defined.

Lemma plain_detect_head (d : Detector) (rtc : Clock) (s : Baseline) :
  d = second_d \/ d = minute_d \/ d = hour_d ->
  fst (detect d rtc s) = negb (field d rtc =? base d s) /\
  base d (snd (detect d rtc s)) = field d rtc.
Proof.
  intros Hd. destruct s as [dd hh mm ss].
  destruct Hd as [-> | [-> | ->]]; cbn;
    unfold secondDetector, minuteDetector, hourDetector; cbn;
    match goal with
    | |- context [?x =? ?y] => destruct (Z.eqb_spec x y) as [E | E]
    end; cbn; split; auto.
Qed.

(** X9: the second, minute and hour detectors have no start-up case: along
    any sequence of calls, from any value of the global (the sentinel -1
    included), exactly the calls whose reading differs from the reading of
    the call before (from the global, for the first call) return true. *)
Theorem plain_detectors_report_every_change :
  forall d : Detector, d = second_d \/ d = minute_d \/ d = hour_d ->
    forall (rtcs : list Clock) (s : Baseline),
      fst (calls d rtcs s) = changes (base d s) (map (field d) rtcs).
Proof.
  intros d Hd rtcs. induction rtcs as [| rtc rest IH]; intros s.
  - reflexivity.
  - rewrite calls_cons. cbn [map changes].
    destruct (plain_detect_head d rtc s Hd) as [-> Hbase].
    rewrite IH, Hbase. reflexivity.
Qed.

(** The second detector from start-up, over the seconds 58, 58, 59, 59, 0. *)
Lemma plain_detectors_report_every_change_witness :
  fst (calls second_d
         (map (fun sec => mkClock sec 0 (fun _ => 0) 0 1) [58; 58; 59; 59; 0]) initial)
  = [true; false; true; false; true].
Proof.
  exact (plain_detectors_report_every_change second_d (or_introl eq_refl)
           (map (fun sec => mkClock sec 0 (fun _ => 0) 0 1) [58; 58; 59; 59; 0]) initial).
Defined.

(** X10: the day detector started from the sentinel returns false on its
    first call and from then on reports exactly the changes of the day, as
    long as the clock never answers -1 for the day. *)
Theorem day_detector_from_startup :
  forall (rtc : Clock) (rest : list Clock) (s : Baseline),
    lastDay s = unset ->
    Forall (fun r => getDay r <> unset) (rtc :: rest) ->
    fst (calls day_d (rtc :: rest) s) = false :: changes (getDay rtc) (map getDay rest).
Proof.
  intros rtc rest s Hs Hall. rewrite calls_cons.
  inversion Hall as [| r l Hr Hrest]; subst.
  assert (Hin : In day_d detectors) by (simpl; tauto).
  assert (H1 : detect day_d rtc s = (false, set_lastDay (getDay rtc) s)).
  { destruct s as [dd hh mm ss]. cbn in Hs. subst dd.
    cbn. unfold dayDetector. cbn. unfold unset in *.
    apply Z.eqb_neq in Hr. rewrite Hr. reflexivity. }
  rewrite H1. cbn [fst snd]. f_equal.
  rewrite (calls_changes day_d Hin).
  - reflexivity.
  - cbn [base day_d lastDay set_lastDay field]. constructor; [exact Hr |].
    clear - Hrest. induction rest as [| a rest IH]; [constructor |].
    inversion Hrest; subst. destruct rest as [| b rest']; [constructor |].
    cbn [map removelast] in *. constructor; [assumption | apply IH; assumption].
Qed.

(** Start-up on the 9th, over midnight to the 10th. *)
Lemma day_detector_from_startup_witness :
  fst (calls day_d (map (fun day => mkClock 0 0 (fun _ => 0) 0 day) [9; 9; 10; 10]) initial)
  = [false; false; true; false].
Proof.
  refine (day_detector_from_startup (mkClock 0 0 (fun _ => 0) 0 9)
            (map (fun day => mkClock 0 0 (fun _ => 0) 0 day) [9; 10; 10])
            initial eq_refl _).
  repeat constructor; discriminate.
Defined.

Lemma reset_same_reading_plain (rtc : Clock) (s : Baseline) :
  let s0 := schedulerInit rtc s in
  secondDetector rtc s0 = (false, s0) /\
  minuteDetector rtc s0 = (false, s0) /\
  dayDetector rtc s0 = (false, s0).
Proof.
  unfold secondDetector, minuteDetector, dayDetector, schedulerInit.
  cbn. rewrite !Z.eqb_refl. repeat split.
Qed.

(** X11: [schedulerInit] followed by one call of each detector at the same
    clock reading: the second, minute and day detectors return false; the
    hour detector returns false exactly when [rtc.getHour(true)], which it
    reads, equals [rtc.getHour()], which the reset stored, and otherwise
    reports an hour change that did not happen. *)
Theorem reset_then_same_reading :
  forall (rtc : Clock) (s : Baseline),
    let s0 := schedulerInit rtc s in
    secondDetector rtc s0 = (false, s0) /\
    minuteDetector rtc s0 = (false, s0) /\
    dayDetector rtc s0 = (false, s0) /\
    fst (hourDetector rtc s0) = negb (getHour rtc true =? getHour_noarg rtc).
Proof.
  intros rtc s s0. subst s0.
  destruct (reset_same_reading_plain rtc s) as (Hs & Hm & Hd).
  split; [exact Hs |]. split; [exact Hm |]. split; [exact Hd |].
  unfold hourDetector, schedulerInit. cbn.
  destruct (getHour rtc true =? getHour_noarg rtc); reflexivity.
Qed.

End SchedulerMore.

(** * Further properties of the time-sync state machine *)
Module NTPMore.
Import NTP NTPSpec.

(** Case analysis on the value of [ntpState]: Started or not. *)
Ltac ntp_unfold :=
  cbv [exec bind gets ret when modify fst snd
       ntpService ntpStart ntpInit schedulerInit rtc Serial_println_rtc
       rtc_setTime timeClient_update timeClient_getEpochTime
       set_ntpState set_ntpWaitSecondCounter set_ntpAttempts set_ntpSuccess
       set_sched emit preincr_ntpWaitSecondCounter incr_ntpAttempts
       ntpState ntpWaitSecondCounter ntpAttempts ntpSuccess sched
       rtc_epoch rtc_fields update_ok epochTime updates trace
       NTPSTATE_IDLE NTPSTATE_STARTED NTPSTATE_COMPLETE NTPSTATE_TIMEOUTERROR
       NTPWAIT_MAX].

(** X12: [ntpAttempts] counts the transitions into Complete: a call of
    [ntpService] that finds the state Started and the update successful ends
    in Complete with [ntpAttempts] one higher (below the largest [int]);
    every other call leaves [ntpAttempts] as it is and does not enter
    Complete. *)
Theorem attempts_count_completions :
  forall w : World,
    Int.INT_MIN <= ntpAttempts w < Int.INT_MAX ->
    let w' := exec ntpService w in
    (ntpState w = NTPSTATE_STARTED /\ update_ok w (updates w) = true /\
     ntpState w' = NTPSTATE_COMPLETE /\ ntpAttempts w' = ntpAttempts w + 1) \/
    (~ (ntpState w = NTPSTATE_STARTED /\ update_ok w (updates w) = true) /\
     ntpAttempts w' = ntpAttempts w /\
     (ntpState w' = NTPSTATE_COMPLETE -> ntpState w = NTPSTATE_COMPLETE)).
Proof.
  intros w Hn w'. subst w'.
  destruct (Z.eq_dec (ntpState w) NTPSTATE_STARTED) as [Hst | Hst].
  - destruct (update_ok w (updates w)) eqn:Hu.
    + left. rewrite (started_success w Hst Hu). cbn [ntpState ntpAttempts].
      repeat split; auto. apply incr_small. exact Hn.
    + right. split; [intros [_ H]; discriminate |].
      destruct (Z_lt_le_dec (Int.incr (ntpWaitSecondCounter w)) NTPWAIT_MAX) as [Hc | Hc].
      * rewrite (started_wait w Hst Hu Hc). cbn [ntpState ntpAttempts].
        split; [reflexivity | discriminate].
      * rewrite (started_timeout w Hst Hu Hc). cbn [ntpState ntpAttempts].
        split; [reflexivity | discriminate].
  - right. split; [intros [H _]; contradiction |].
    rewrite (not_started_idle w Hst). split; [reflexivity | auto].
Qed.

(** A successful call and a call in Complete. *)
Lemma attempts_count_completions_witness :
  let w := exec ntpStart (sample true) in
  ntpAttempts (exec ntpService w) = 3 /\
  ntpAttempts (exec ntpService (exec ntpService w)) = 3.
Proof.
  intros w.
  assert (Hr : forall v, ntpAttempts v = 2 \/ ntpAttempts v = 3 ->
                         Int.INT_MIN <= ntpAttempts v < Int.INT_MAX).
  { intros v [-> | ->]; vm_compute; (split; [discriminate | reflexivity]). }
  split.
  - destruct (attempts_count_completions w (Hr w (or_introl eq_refl)))
      as [(_ & _ & _ & H) | (H & _)].
    + exact H.
    + exfalso. apply H. split; reflexivity.
  - destruct (attempts_count_completions (exec ntpService w)
                (Hr (exec ntpService w) (or_intror eq_refl)))
      as [(H & _) | (_ & H & _)].
    + discriminate H.
    + exact H.
Defined.

(** Waiting in Started while the next [n] updates fail. *)
Lemma started_wait_upto (n : nat) (w : World) :
  ntpState w = NTPSTATE_STARTED ->
  (forall k, (updates w <= k < updates w + n)%nat -> update_ok w k = false) ->
  0 <= ntpWaitSecondCounter w ->
  ntpWaitSecondCounter w + Z.of_nat n < NTPWAIT_MAX ->
  service_calls n w
  = mkWorld NTPSTATE_STARTED (ntpWaitSecondCounter w + Z.of_nat n) (ntpAttempts w)
            (ntpSuccess w) (sched w) (rtc_epoch w) (rtc_fields w)
            (update_ok w) (epochTime w) (updates w + n)
            (trace w ++ repeat TimeClient_forceUpdate n).
Proof.
  intros Hst. unfold NTPWAIT_MAX. induction n as [| n IH]; intros Hu Hc0 Hc.
  - destruct w; cbn in *. subst.
    rewrite Z.add_0_r, Nat.add_0_r, app_nil_r. reflexivity.
  - rewrite ntp_calls_S, IH by (try lia; intros k Hk; apply Hu; lia).
    rewrite started_wait;
      cbn [ntpState ntpWaitSecondCounter ntpAttempts ntpSuccess sched rtc_epoch
           rtc_fields update_ok epochTime updates trace].
    + rewrite incr_small by (unfold Int.INT_MIN, Int.INT_MAX; lia).
      rewrite <- app_assoc, <- repeat_cons.
      f_equal; [lia | rewrite Nat.add_succ_r; reflexivity].
    + reflexivity.
    + apply Hu. lia.
    + rewrite incr_small by (unfold Int.INT_MIN, Int.INT_MAX; lia). unfold NTPWAIT_MAX. lia.
Qed.

(** X13: a sync that succeeds late: from Started with the counter at 0, when
    the first [j] updates fail ([j] < 30) and the next one succeeds, the call
    number [j]+1 of [ntpService] ends in Complete with the clock set to the
    epoch the client then returns, after one [forceUpdate()] per failed call;
    the wait counter keeps the value [j]; and every later call leaves the
    world as it is. *)
Theorem late_success :
  forall (j : nat) (w : World),
    ntpState w = NTPSTATE_STARTED ->
    ntpWaitSecondCounter w = 0 ->
    (j < 30)%nat ->
    (forall k, (updates w <= k < updates w + j)%nat -> update_ok w k = false) ->
    update_ok w (updates w + j) = true ->
    let epoch := epochTime w (S (updates w + j)) in
    let done := service_calls (S j) w in
    ntpState done = NTPSTATE_COMPLETE /\
    ntpSuccess done = true /\
    rtc_epoch done = epoch /\
    sched done = Scheduler.schedulerInit (rtc_fields w epoch) (sched w) /\
    ntpWaitSecondCounter done = Z.of_nat j /\
    ntpAttempts done = Int.incr (ntpAttempts w) /\
    trace done
    = trace w ++ repeat TimeClient_forceUpdate j
              ++ [Serial_println_rtc_getTime "NTP->RTC=%Y/%m/%d,%H:%M:%S" epoch;
                  Call_schedulerInit] /\
    (forall n, service_calls (n + S j) w = done).
Proof.
  intros j w Hst Hc Hj Hfail Hok epoch done.
  assert (Hdone : done
                  = mkWorld NTPSTATE_COMPLETE (Z.of_nat j) (Int.incr (ntpAttempts w)) true
                      (Scheduler.schedulerInit (rtc_fields w epoch) (sched w))
                      epoch (rtc_fields w) (update_ok w) (epochTime w) (S (updates w + j))
                      (trace w ++ repeat TimeClient_forceUpdate j
                         ++ [Serial_println_rtc_getTime "NTP->RTC=%Y/%m/%d,%H:%M:%S" epoch;
                             Call_schedulerInit])).
  { subst done. rewrite ntp_calls_S.
    rewrite started_wait_upto, Hc by (rewrite ?Hc; unfold NTPWAIT_MAX; auto; lia).
    rewrite started_success; [| reflexivity | exact Hok].
    cbn [ntpState ntpWaitSecondCounter ntpAttempts ntpSuccess sched rtc_epoch
         rtc_fields update_ok epochTime updates trace].
    fold epoch. rewrite <- app_assoc. reflexivity. }
  rewrite Hdone.
  cbn [ntpState ntpWaitSecondCounter ntpAttempts ntpSuccess sched rtc_epoch trace].
  repeat split.
  intros n. rewrite ntp_calls_add. fold done. rewrite Hdone.
  apply not_started_idle_n. discriminate.
Qed.

(** A client that has the time at the fourth request. *)
Lemma late_success_witness :
  let w := exec ntpStart
             (mkWorld NTPSTATE_IDLE 0 0 false Scheduler.initial 0
                (fun e => Scheduler.mkClock e e (fun _ => e) e e)
                (fun k => Nat.eqb k 3) (fun _ => 1700000000) 0 []) in
  ntpState (service_calls 3 w) = NTPSTATE_STARTED /\
  ntpState (service_calls 4 w) = NTPSTATE_COMPLETE /\
  rtc_epoch (service_calls 4 w) = 1700000000 /\
  service_calls 50 w = service_calls 4 w.
Proof.
  intros w.
  assert (H3 : (3 < 30)%nat) by lia.
  assert (Hfail : forall k, (updates w <= k < updates w + 3)%nat -> update_ok w k = false).
  { intros k Hk. cbn in Hk. cbn.
    destruct k as [| [| [| k]]]; try reflexivity. lia. }
  destruct (late_success 3 w eq_refl eq_refl H3 Hfail eq_refl)
    as (Hst & _ & Hclock & _ & _ & _ & _ & Hstay).
  split; [reflexivity |]. split; [exact Hst |]. split; [exact Hclock |].
  exact (Hstay 46%nat).
Defined.

(** X14: right after a successful sync, with the clock still holding the
    epoch just set, the second, minute and day detectors of
    SchedulerService.h return false: the jump of the clock is not reported as
    a roll-over. *)
Theorem sync_does_not_fire_detectors :
  forall w : World,
    ntpState w = NTPSTATE_STARTED ->
    update_ok w (updates w) = true ->
    let w' := exec ntpService w in
    let now := rtc_fields w' (rtc_epoch w') in
    Scheduler.secondDetector now (sched w') = (false, sched w') /\
    Scheduler.minuteDetector now (sched w') = (false, sched w') /\
    Scheduler.dayDetector now (sched w') = (false, sched w').
Proof.
  intros w Hst Hu w' now. subst now w'. rewrite (started_success w Hst Hu).
  cbn [sched rtc_epoch rtc_fields].
  destruct (SchedulerMore.reset_same_reading_plain
              (rtc_fields w (epochTime w (S (updates w)))) (sched w))
    as (Hs & Hm & Hd).
  repeat split; assumption.
Qed.

(** A first sync after start-up. *)
Lemma sync_does_not_fire_detectors_witness :
  let w' := exec ntpService (exec ntpStart (sample true)) in
  let now := rtc_fields w' (rtc_epoch w') in
  fst (Scheduler.secondDetector now (sched w')) = false /\
  fst (Scheduler.dayDetector now (sched w')) = false.
Proof.
  intros w' now.
  destruct (sync_does_not_fire_detectors (exec ntpStart (sample true)) eq_refl eq_refl)
    as (Hs & _ & Hd).
  split; [exact (f_equal fst Hs) | exact (f_equal fst Hd)].
Defined.

End NTPMore.

(** * Facts about character arrays *)
Module CMemFacts.
Import CMem.

Lemma store_ok (i v : Z) (a : list Z) :
  0 <= i < Z.of_nat (List.length a) ->
  store i v a = Some (firstn (Z.to_nat i) a ++ v :: skipn (S (Z.to_nat i)) a).
Proof.
  intros H. unfold store.
  destruct (Z.leb_spec 0 i); [| lia].
  destruct (Z.ltb_spec i (Z.of_nat (List.length a))); [reflexivity | lia].
Qed.

Lemma stored_length (k : nat) (v : Z) (a : list Z) :
  (k < List.length a)%nat ->
  List.length (firstn k a ++ v :: skipn (S k) a) = List.length a.
Proof.
  intros H. rewrite length_app. cbn [List.length].
  rewrite length_firstn, length_skipn. lia.
Qed.

Lemma stored_prefix (k : nat) (v : Z) (a : list Z) :
  (k < List.length a)%nat ->
  firstn (S k) (firstn k a ++ v :: skipn (S k) a) = firstn k a ++ [v].
Proof.
  intros H. rewrite firstn_app, length_firstn.
  replace (S k - Nat.min k (List.length a))%nat with 1%nat by lia.
  rewrite firstn_all2 by (rewrite length_firstn; lia). reflexivity.
Qed.

Lemma until_nul_nonzero (l : list Z) :
  Forall (fun c => c <> 0) l -> until_nul l = l.
Proof.
  induction 1 as [| c l Hc _ IH]; [reflexivity |].
  cbn. apply Z.eqb_neq in Hc. rewrite Hc, IH. reflexivity.
Qed.

Lemma until_nul_is_nonzero (l : list Z) : Forall (fun c => c <> 0) (until_nul l).
Proof.
  induction l as [| c l IH]; [constructor |].
  cbn. destruct (Z.eqb_spec c 0); [constructor | constructor; assumption].
Qed.

Lemma until_nul_length (l : list Z) : (List.length (until_nul l) <= List.length l)%nat.
Proof.
  induction l as [| c l IH]; [reflexivity |].
  cbn. destruct (c =? 0); cbn; lia.
Qed.

(** The string of an array that holds a NUL right after the cells [l]. *)
Lemma cstring_terminated (l rest : list Z) :
  cstring (l ++ 0 :: rest) = Some (until_nul l).
Proof.
  induction l as [| c l IH]; [reflexivity |].
  cbn. destruct (c =? 0); [reflexivity |]. rewrite IH. reflexivity.
Qed.

Lemma cstring_nonzero (a s : list Z) :
  cstring a = Some s -> Forall (fun c => c <> 0) s.
Proof.
  revert s. induction a as [| c a IH]; intros s; [discriminate |].
  cbn. destruct (Z.eqb_spec c 0) as [E | E].
  - intros [= <-]. constructor.
  - destruct (cstring a) as [s' |]; [| discriminate].
    intros [= <-]. constructor; [exact E | apply IH; reflexivity].
Qed.

(** [strcpy] makes the destination hold the string of the source. *)
Lemma strcpy_terminated (dst l rest : list Z) :
  (List.length (until_nul l) < List.length dst)%nat ->
  exists dst',
    strcpy dst (l ++ 0 :: rest) = Some dst' /\
    cstring dst' = Some (until_nul l) /\
    List.length dst' = List.length dst.
Proof.
  intros H. unfold strcpy. rewrite cstring_terminated.
  apply Nat.ltb_lt in H. rewrite H. apply Nat.ltb_lt in H.
  eexists. split; [reflexivity |]. split.
  - rewrite cstring_terminated.
    rewrite until_nul_nonzero by apply until_nul_is_nonzero. reflexivity.
  - rewrite length_app. cbn [List.length]. rewrite length_skipn. lia.
Qed.

End CMemFacts.

(** * Properties of the serial input service *)
Module SioSpec.
Import CMem CMemFacts Sio.

Lemma well_formed_inv (w : World) :
  well_formed w = true ->
  List.length (siobuf w) = 132%nat /\ List.length (siorx w) = 132%nat /\
  0 <= siobufptr w <= 128.
Proof.
  unfold well_formed, SIO_INPUT_MAXLEN. intros H.
  apply andb_true_iff in H. destruct H as [H H4].
  apply andb_true_iff in H. destruct H as [H H3].
  apply andb_true_iff in H. destruct H as [H1 H2].
  apply Nat.eqb_eq in H1, H2. apply Z.leb_le in H3, H4. auto.
Qed.

Lemma well_formed_intro (buf rxline : list Z) (ptr : Z) (rx : list Z) (out : list Event) :
  List.length buf = 132%nat -> List.length rxline = 132%nat -> 0 <= ptr <= 128 ->
  well_formed (mkWorld buf rxline ptr rx out) = true.
Proof.
  intros H1 H2 H3. unfold well_formed, SIO_INPUT_MAXLEN. cbn [siobuf siorx siobufptr].
  rewrite H1, H2. cbn [Nat.eqb andb].
  apply andb_true_iff. split; [apply Z.leb_le | apply Z.leb_le]; lia.
Qed.

Lemma kept_length (ptr : Z) (l : list Z) :
  0 <= ptr <= 128 -> 0 <= ptr + Z.of_nat (List.length (kept ptr l)) <= 128.
Proof.
  intros H. unfold kept, SIO_INPUT_MAXLEN.
  pose proof (firstn_le_length (Z.to_nat (128 - ptr)) (map (fun b => Z.land b 127) l)). lia.
Qed.

(** The rounds of the loop over bytes that do not end a line. *)
Lemma loop_plain (l : list Z) :
  Forall (fun b => is_eol b = false) l ->
  forall (buf : list Z) (ptr : Z),
    List.length buf = 132%nat -> 0 <= ptr <= 128 ->
    exists buf',
      List.length buf' = 132%nat /\
      firstn (Z.to_nat (ptr + Z.of_nat (List.length (kept ptr l)))) buf'
      = firstn (Z.to_nat ptr) buf ++ kept ptr l /\
      forall (tail rxline : list Z) (out : list Event),
        sioService_loop (l ++ tail) buf rxline ptr out
        = sioService_loop tail buf' rxline
            (ptr + Z.of_nat (List.length (kept ptr l)))
            (out ++ map Print_char (kept ptr l)).
Proof.
  induction 1 as [| b l Hb _ IH]; intros buf ptr Hlen Hptr.
  - exists buf. unfold kept. rewrite firstn_nil. cbn [List.length map app].
    rewrite Z.add_0_r, app_nil_r. split; [exact Hlen |]. split; [reflexivity |].
    intros tail rxline out. rewrite app_nil_r. reflexivity.
  - unfold is_eol in Hb. destruct (Z.ltb_spec ptr 128) as [Hroom | Hfull].
    + set (buf1 := firstn (Z.to_nat ptr) buf ++ Z.land b 127 :: skipn (S (Z.to_nat ptr)) buf).
      assert (Hlen1 : List.length buf1 = 132%nat).
      { subst buf1. rewrite stored_length; lia. }
      destruct (IH buf1 (ptr + 1) Hlen1 ltac:(lia)) as (buf' & Hlen' & Hpre & Hrun).
      assert (Hkept : kept ptr (b :: l) = Z.land b 127 :: kept (ptr + 1) l).
      { unfold kept, SIO_INPUT_MAXLEN.
        replace (Z.to_nat (128 - ptr)) with (S (Z.to_nat (128 - (ptr + 1)))) by lia.
        reflexivity. }
      exists buf'. rewrite Hkept. cbn [List.length map].
      replace (ptr + Z.of_nat (S (List.length (kept (ptr + 1) l))))
        with (ptr + 1 + Z.of_nat (List.length (kept (ptr + 1) l))) by lia.
      split; [exact Hlen' |]. split.
      * rewrite Hpre. subst buf1.
        replace (Z.to_nat (ptr + 1)) with (S (Z.to_nat ptr)) by lia.
        rewrite stored_prefix by lia. rewrite <- app_assoc. reflexivity.
      * intros tail rxline out. cbn [app sioService_loop]. rewrite Hb.
        unfold SIO_INPUT_MAXLEN. destruct (Z.ltb_spec ptr 128); [| lia].
        rewrite store_ok by lia.
        rewrite incr_small by (unfold Int.INT_MIN, Int.INT_MAX; lia).
        fold buf1. rewrite Hrun, <- app_assoc. reflexivity.
    + assert (ptr = 128) by lia. subst ptr.
      destruct (IH buf 128 Hlen Hptr) as (buf' & Hlen' & Hpre & Hrun).
      assert (Hkept : forall l', kept 128 l' = []) by reflexivity.
      rewrite Hkept in *. exists buf'.
      split; [exact Hlen' |]. split; [exact Hpre |].
      intros tail rxline out. cbn [app sioService_loop]. rewrite Hb.
      unfold SIO_INPUT_MAXLEN. destruct (Z.ltb_spec 128 128); [lia |].
      apply Hrun.
Qed.

(** Any input is either free of line ends or has a first one. *)
Lemma first_eol (rx : list Z) :
  Forall (fun b => is_eol b = false) rx \/
  exists l e rest, rx = l ++ e :: rest /\
                   Forall (fun b => is_eol b = false) l /\ is_eol e = true.
Proof.
  induction rx as [| b rx IH]; [left; constructor |].
  destruct (is_eol b) eqn:Hb.
  - right. exists [], b, rx. auto.
  - destruct IH as [IH | (l & e & rest & -> & Hl & He)].
    + left. constructor; assumption.
    + right. exists (b :: l), e, rest. split; [reflexivity |].
      split; [constructor; assumption | exact He].
Qed.

(** The round of the loop that sees a line end, [ptr] cells being in use. *)
Lemma loop_eol (e : Z) (rest buf rxline : list Z) (ptr : Z) (out : list Event) :
  is_eol e = true ->
  List.length buf = 132%nat -> List.length rxline = 132%nat -> 0 <= ptr <= 128 ->
  exists buf' rxline',
    sioService_loop (e :: rest) buf rxline ptr out
    = Some (Siorx, mkWorld buf' rxline' 0 rest (out ++ [Print_SIOPROMPT])) /\
    List.length buf' = 132%nat /\ List.length rxline' = 132%nat /\
    cstring rxline' = Some (until_nul (firstn (Z.to_nat ptr) buf)).
Proof.
  intros He Hbuf Hrx Hptr. cbn [sioService_loop]. unfold is_eol in He. rewrite He.
  rewrite store_ok by lia.
  assert (Hfit : (List.length (until_nul (firstn (Z.to_nat ptr) buf)) < List.length rxline)%nat).
  { pose proof (until_nul_length (firstn (Z.to_nat ptr) buf)).
    pose proof (firstn_le_length (Z.to_nat ptr) buf). lia. }
  destruct (strcpy_terminated rxline (firstn (Z.to_nat ptr) buf)
              (skipn (S (Z.to_nat ptr)) buf) Hfit) as (rxline' & Hcopy & Hline & Hlen).
  rewrite Hcopy. eexists _, rxline'. split; [reflexivity |].
  split; [rewrite stored_length; lia |]. split; [lia | exact Hline].
Qed.

(** A world [w] whose waiting bytes hold no line end: what a call leaves,
    and what a call does once more bytes have arrived. *)
Lemma call_plain (w : World) :
  well_formed w = true ->
  Forall (fun b => is_eol b = false) (received w) ->
  exists w1,
    sioService w = Some (NULL, w1) /\
    well_formed w1 = true /\
    received w1 = [] /\
    siorx w1 = siorx w /\
    siobufptr w1 = siobufptr w + Z.of_nat (List.length (kept (siobufptr w) (received w))) /\
    firstn (Z.to_nat (siobufptr w1)) (siobuf w1)
    = firstn (Z.to_nat (siobufptr w)) (siobuf w) ++ kept (siobufptr w) (received w) /\
    printed w1 = printed w ++ map Print_char (kept (siobufptr w) (received w)) /\
    (forall more, sioService (receive more w) = sioService (receive more w1)).
Proof.
  intros Hw Hrx. destruct (well_formed_inv w Hw) as (Hbuf & Hrxl & Hptr).
  destruct (loop_plain (received w) Hrx (siobuf w) (siobufptr w) Hbuf Hptr)
    as (buf' & Hlen & Hpre & Hrun).
  pose proof (kept_length (siobufptr w) (received w) Hptr) as Hk.
  eexists (mkWorld buf' (siorx w) _ [] _).
  split.
  { unfold sioService. rewrite <- (app_nil_r (received w)) at 1.
    rewrite Hrun. reflexivity. }
  cbn [siobuf siorx siobufptr received printed].
  split; [apply well_formed_intro; assumption |].
  split; [reflexivity |]. split; [reflexivity |]. split; [reflexivity |].
  split; [exact Hpre |]. split; [reflexivity |].
  intros more. unfold sioService, receive.
  cbn [siobuf siorx siobufptr received printed app]. apply Hrun.
Qed.

(** A world [w] whose waiting bytes hold a line end after the bytes [l]. *)
Lemma call_line (w : World) (l : list Z) (e : Z) (rest : list Z) :
  well_formed w = true ->
  received w = l ++ e :: rest ->
  Forall (fun b => is_eol b = false) l ->
  is_eol e = true ->
  exists w',
    sioService w = Some (Siorx, w') /\
    well_formed w' = true /\
    line w' = Some (until_nul (firstn (Z.to_nat (siobufptr w)) (siobuf w)
                               ++ kept (siobufptr w) l)) /\
    received w' = rest /\
    siobufptr w' = 0 /\
    printed w' = printed w ++ map Print_char (kept (siobufptr w) l) ++ [Print_SIOPROMPT].
Proof.
  intros Hw Hrx Hl He. destruct (well_formed_inv w Hw) as (Hbuf & Hrxl & Hptr).
  destruct (loop_plain l Hl (siobuf w) (siobufptr w) Hbuf Hptr)
    as (buf1 & Hlen1 & Hpre & Hrun).
  pose proof (kept_length (siobufptr w) l Hptr) as Hk.
  destruct (loop_eol e rest buf1 (siorx w)
              (siobufptr w + Z.of_nat (List.length (kept (siobufptr w) l)))
              (printed w ++ map Print_char (kept (siobufptr w) l))
              He Hlen1 Hrxl Hk) as (buf' & rxline' & Hend & Hlen' & Hrxl' & Hline).
  eexists. split.
  { unfold sioService. rewrite Hrx, Hrun, Hend. reflexivity. }
  cbn [siobuf siorx siobufptr received printed]. unfold line. cbn [siorx].
  split; [apply well_formed_intro; [assumption | assumption | lia] |].
  split; [rewrite Hline, Hpre; reflexivity |].
  split; [reflexivity |]. split; [reflexivity |].
  rewrite <- app_assoc. reflexivity.
Qed.

(** X15: [sioService] never reaches outside its two arrays: in a world where
    they have their declared 132 cells and [siobufptr] is within 0..128 (the
    world at start-up is one), the call returns, the world it leaves is again
    such a world, and so are the worlds after [sioInit] and after more bytes
    arrive; a call that returns NULL has taken every waiting byte. *)
Theorem sio_stays_in_bounds :
  (forall rx, well_formed (startup rx) = true) /\
  (forall w : World, well_formed w = true ->
     (forall more, well_formed (receive more w) = true) /\
     well_formed (sioInit w) = true /\
     exists p w', sioService w = Some (p, w') /\ well_formed w' = true /\
                  (p = NULL -> received w' = [])).
Proof.
  split; [intros rx; reflexivity |].
  intros w Hw. destruct (well_formed_inv w Hw) as (Hbuf & Hrxl & Hptr).
  split; [intros more; apply well_formed_intro; assumption |].
  split; [apply well_formed_intro; [assumption | assumption | lia] |].
  destruct (first_eol (received w)) as [Hplain | (l & e & rest & Hrx & Hl & He)].
  - destruct (call_plain w Hw Hplain) as (w1 & Hcall & Hw1 & Hrx1 & _).
    exists NULL, w1. auto.
  - destruct (call_line w l e rest Hw Hrx Hl He) as (w' & Hcall & Hw' & _).
    exists Siorx, w'. split; [exact Hcall |]. split; [exact Hw' | discriminate].
Qed.

(** A burst of 200 letters: 128 are kept. *)
Lemma sio_stays_in_bounds_witness :
  exists p w', sioService (startup (repeat 65 200)) = Some (p, w') /\
               well_formed w' = true /\ (p = NULL -> received w' = []).
Proof.
  destruct sio_stays_in_bounds as [Hstart Hstep].
  destruct (Hstep (startup (repeat 65 200)) (Hstart (repeat 65 200))) as (_ & _ & H).
  exact H.
Defined.

(** X16: bytes that arrive without a line end are taken into [siobuf]:
    the call returns NULL, leaves [siorx] alone, echoes the characters it
    kept, and a call made after more bytes have arrived does what one call
    would have done had all the bytes been waiting together. *)
Theorem partial_line_accumulates :
  forall w : World,
    well_formed w = true ->
    Forall (fun b => is_eol b = false) (received w) ->
    exists w1,
      sioService w = Some (NULL, w1) /\
      received w1 = [] /\
      siorx w1 = siorx w /\
      printed w1 = printed w ++ map Print_char (kept (siobufptr w) (received w)) /\
      (forall more, sioService (receive more w1) = sioService (receive more w)).
Proof.
  intros w Hw Hrx.
  destruct (call_plain w Hw Hrx) as (w1 & Hcall & _ & Hrx1 & Hline & _ & _ & Hout & Hmore).
  exists w1. repeat split; auto.
Qed.

(** "hi" arrives, then "!" and a line feed. *)
Lemma partial_line_accumulates_witness :
  exists w1,
    sioService (startup [104; 105]) = Some (NULL, w1) /\
    sioService (receive [33; 10] w1) = sioService (startup [104; 105; 33; 10]).
Proof.
  assert (Hplain : Forall (fun b => is_eol b = false) (received (startup [104; 105]))).
  { repeat constructor. }
  destruct (partial_line_accumulates (startup [104; 105]) eq_refl Hplain)
    as (w1 & Hcall & _ & _ & _ & Hmore).
  exists w1. split; [exact Hcall |]. exact (Hmore [33; 10]).
Defined.

(** X17: when a line end (CR or LF, high bit ignored) is waiting after the
    bytes [l], the call returns [&siorx[0]], and the string there is made of
    the characters [siobuf] already held followed by the characters of [l],
    each masked to 7 bits, as many as fit in 128 cells, and cut at the first
    NUL among them; the characters beyond 128 are dropped without echo; the
    bytes after the line end stay in the receive buffer; [siobufptr] is 0 and
    the prompt is printed. *)
Theorem line_returned :
  forall (w : World) (l : list Z) (e : Z) (rest : list Z),
    well_formed w = true ->
    received w = l ++ e :: rest ->
    Forall (fun b => is_eol b = false) l ->
    is_eol e = true ->
    exists w',
      sioService w = Some (Siorx, w') /\
      line w' = Some (until_nul (firstn (Z.to_nat (siobufptr w)) (siobuf w)
                                 ++ kept (siobufptr w) l)) /\
      received w' = rest /\
      siobufptr w' = 0 /\
      printed w' = printed w ++ map Print_char (kept (siobufptr w) l) ++ [Print_SIOPROMPT].
Proof.
  intros w l e rest Hw Hrx Hl He.
  destruct (call_line w l e rest Hw Hrx Hl He) as (w' & Hcall & _ & H).
  exists w'. split; [exact Hcall | exact H].
Qed.

(** "ok" with the high bit set on the "k", then CR, then "x". *)
Lemma line_returned_witness :
  exists w',
    sioService (startup [111; 235; 13; 120]) = Some (Siorx, w') /\
    line w' = Some [111; 107] /\ received w' = [120].
Proof.
  assert (Hl : Forall (fun b => is_eol b = false) [111; 235]) by (repeat constructor).
  destruct (line_returned (startup [111; 235; 13; 120]) [111; 235] 13 [120]
              eq_refl eq_refl Hl eq_refl) as (w' & Hcall & Hline & Hrest & _).
  exists w'. split; [exact Hcall |]. split; [exact Hline | exact Hrest].
Defined.

(** X18: a line that ends in CR LF is returned at the CR, and the LF left
    in the receive buffer makes the next call return a second, empty line. *)
Theorem crlf_gives_an_empty_line :
  forall (w : World) (l rest : list Z),
    well_formed w = true ->
    received w = l ++ 13 :: 10 :: rest ->
    Forall (fun b => is_eol b = false) l ->
    exists w1 w2,
      sioService w = Some (Siorx, w1) /\
      sioService w1 = Some (Siorx, w2) /\
      line w2 = Some [] /\
      received w2 = rest.
Proof.
  intros w l rest Hw Hrx Hl.
  destruct (call_line w l 13 (10 :: rest) Hw Hrx Hl eq_refl)
    as (w1 & Hcall1 & Hw1 & _ & Hrx1 & Hptr1 & _).
  destruct (call_line w1 [] 10 rest Hw1 Hrx1 (Forall_nil _) eq_refl)
    as (w2 & Hcall2 & _ & Hline2 & Hrx2 & _).
  exists w1, w2. split; [exact Hcall1 |]. split; [exact Hcall2 |].
  split; [| exact Hrx2].
  rewrite Hline2, Hptr1. reflexivity.
Qed.

(** "a", CR, LF, "b". *)
Lemma crlf_gives_an_empty_line_witness :
  exists w1 w2,
    sioService (startup [97; 13; 10; 98]) = Some (Siorx, w1) /\
    sioService w1 = Some (Siorx, w2) /\ line w2 = Some [] /\ received w2 = [98].
Proof.
  assert (Hl : Forall (fun b => is_eol b = false) [97]) by (repeat constructor).
  exact (crlf_gives_an_empty_line (startup [97; 13; 10; 98]) [97] [98] eq_refl eq_refl Hl).
Defined.

End SioSpec.

(** * Properties of [readln] and [readKey] *)
Module FileSystemSpec.
Import CMem CMemFacts FileSystem.

(** Checks a concrete line byte by byte. *)
Ltac text_line :=
  repeat (apply Forall_cons; [first [left; reflexivity | right; reflexivity] |]);
  apply Forall_nil.

Lemma wrap_small (z : Z) : Int.INT_MIN <= z <= Int.INT_MAX -> Int.wrap z = z.
Proof.
  unfold Int.INT_MIN, Int.INT_MAX, Int.wrap. intros H.
  rewrite Z.mod_small by lia. lia.
Qed.

Lemma is_text_inv (b : Z) :
  is_text b = true -> 0 < b < 128 /\ b <> 10 /\ b <> 13.
Proof.
  unfold is_text. intros H.
  apply andb_true_iff in H. destruct H as [H H13].
  apply andb_true_iff in H. destruct H as [H H10].
  apply andb_true_iff in H. destruct H as [H0 H128].
  apply Z.ltb_lt in H0, H128.
  apply negb_true_iff, Z.eqb_neq in H10, H13. auto.
Qed.

Lemma to_char_small (sg : bool) (b : Z) : b < 128 -> to_char sg b = b.
Proof.
  intros H. unfold to_char. destruct (Z.leb_spec 128 b); [lia |].
  rewrite andb_false_r. reflexivity.
Qed.

(** The loop when [len] has reached [maxlen-1]: it reads nothing. *)
Lemma loop_full (sg : bool) (finp buf : list Z) (len maxlen : Z) :
  ~ len < Int.wrap (maxlen - 1) ->
  readln_loop sg finp buf len maxlen = Some (len, false, finp, buf).
Proof.
  intros H. destruct (Z.ltb_spec len (Int.wrap (maxlen - 1))) as [Hlt | Hge]; [contradiction |].
  destruct finp; cbn [readln_loop];
    destruct (Z.ltb_spec len (Int.wrap (maxlen - 1))); try lia; reflexivity.
Qed.

(** One round of the loop on a byte, when there is room. *)
Lemma loop_step (sg : bool) (b : Z) (rest buf : list Z) (len maxlen : Z) :
  len < Int.wrap (maxlen - 1) ->
  readln_loop sg (b :: rest) buf len maxlen
  = let c := to_char sg b in
    if c <? 0 then Some (len, true, rest, buf)
    else if c =? 13 then readln_loop sg rest buf len maxlen
    else if c =? 10 then Some (len, false, rest, buf)
    else match store len (c mod 256) buf with
         | Some buf' => readln_loop sg rest buf' (Int.incr len) maxlen
         | None => None
         end.
Proof.
  intros H. cbn [readln_loop].
  destruct (Z.ltb_spec len (Int.wrap (maxlen - 1))); [reflexivity | lia].
Qed.

(** The rounds of the loop over the bytes of a line (text and CRs) that
    fits. *)
Lemma loop_text (sg : bool) (l : list Z) :
  Forall (fun b => is_text b = true \/ b = 13) l ->
  forall (buf : list Z) (len maxlen : Z),
    maxlen <= Int.INT_MAX ->
    0 <= len ->
    len + Z.of_nat (List.length (without_cr l)) < maxlen - 1 ->
    maxlen <= Z.of_nat (List.length buf) ->
    exists buf',
      List.length buf' = List.length buf /\
      firstn (Z.to_nat (len + Z.of_nat (List.length (without_cr l)))) buf'
      = firstn (Z.to_nat len) buf ++ without_cr l /\
      forall rest,
        readln_loop sg (l ++ rest) buf len maxlen
        = readln_loop sg rest buf' (len + Z.of_nat (List.length (without_cr l))) maxlen.
Proof.
  induction 1 as [| b l Hb _ IH]; intros buf len maxlen Hmax Hlen Hfit Hcap.
  - exists buf. cbn [without_cr filter List.length app].
    rewrite Z.add_0_r, app_nil_r. auto.
  - assert (Hwrap : Int.wrap (maxlen - 1) = maxlen - 1).
    { apply wrap_small. unfold Int.INT_MIN, Int.INT_MAX in *. lia. }
    assert (Hroom : len < Int.wrap (maxlen - 1)) by (rewrite Hwrap; lia).
    destruct Hb as [Hb | ->].
    + destruct (is_text_inv b Hb) as (Hrange & H10 & H13).
      assert (Hw : without_cr (b :: l) = b :: without_cr l).
      { unfold without_cr. cbn [filter]. apply Z.eqb_neq in H13. rewrite H13. reflexivity. }
      rewrite Hw in *. cbn [List.length] in *.
      set (buf1 := firstn (Z.to_nat len) buf ++ b :: skipn (S (Z.to_nat len)) buf).
      assert (Hlen1 : List.length buf1 = List.length buf).
      { subst buf1. apply stored_length. lia. }
      destruct (IH buf1 (len + 1) maxlen Hmax ltac:(lia) ltac:(lia) ltac:(lia))
        as (buf' & Hlen' & Hpre & Hrun).
      exists buf'.
      replace (len + Z.of_nat (S (List.length (without_cr l))))
        with (len + 1 + Z.of_nat (List.length (without_cr l))) by lia.
      split; [lia |]. split.
      * rewrite Hpre. subst buf1.
        replace (Z.to_nat (len + 1)) with (S (Z.to_nat len)) by lia.
        rewrite stored_prefix by lia. rewrite <- app_assoc. reflexivity.
      * intros rest. cbn [app]. rewrite (loop_step sg b _ buf len maxlen Hroom).
        cbv zeta. rewrite to_char_small by lia.
        destruct (Z.ltb_spec b 0); [lia |].
        destruct (Z.eqb_spec b 13); [contradiction |].
        destruct (Z.eqb_spec b 10); [contradiction |].
        rewrite Z.mod_small by lia. rewrite store_ok by lia.
        rewrite incr_small by (unfold Int.INT_MIN, Int.INT_MAX in *; lia).
        fold buf1. apply Hrun.
    + assert (Hw : without_cr (13 :: l) = without_cr l) by reflexivity.
      rewrite Hw in *.
      destruct (IH buf len maxlen Hmax Hlen Hfit Hcap) as (buf' & Hlen' & Hpre & Hrun).
      exists buf'. split; [exact Hlen' |]. split; [exact Hpre |].
      intros rest. cbn [app]. rewrite (loop_step sg 13 _ buf len maxlen Hroom).
      cbv zeta. rewrite to_char_small by lia. cbn. apply Hrun.
Qed.

(** [readln] on a line that fits, whatever ends it: the loop result [tail_run]
    on what follows decides. *)
Lemma readln_text (sg : bool) (l buf : list Z) (maxlen : Z) :
  Forall (fun b => is_text b = true \/ b = 13) l ->
  maxlen <= Int.INT_MAX ->
  Z.of_nat (List.length (without_cr l)) < maxlen - 1 ->
  maxlen <= Z.of_nat (List.length buf) ->
  exists buf1,
    List.length buf1 = List.length buf /\
    firstn (List.length (without_cr l)) buf1 = without_cr l /\
    forall rest,
      readln sg (l ++ rest) buf maxlen
      = match readln_loop sg rest buf1 (Z.of_nat (List.length (without_cr l))) maxlen with
        | Some (len, eof, finp', buf2) =>
            match store len 0 buf2 with
            | Some buf3 => Some (negb eof, finp', buf3)
            | None => None
            end
        | None => None
        end.
Proof.
  intros Hl Hmax Hfit Hcap.
  assert (Hbuf : (0 < List.length buf)%nat) by lia.
  set (buf0 := firstn (Z.to_nat 0) buf ++ 0 :: skipn (S (Z.to_nat 0)) buf).
  assert (Hlen0 : List.length buf0 = List.length buf).
  { subst buf0. apply stored_length. exact Hbuf. }
  destruct (loop_text sg l Hl buf0 0 maxlen Hmax ltac:(lia) ltac:(lia) ltac:(lia))
    as (buf1 & Hlen1 & Hpre & Hrun).
  exists buf1. split; [lia |]. split.
  - rewrite Z.add_0_l, Nat2Z.id in Hpre. rewrite Hpre. reflexivity.
  - intros rest. unfold readln. rewrite store_ok by lia. fold buf0.
    rewrite Hrun. reflexivity.
Qed.

(** The array once [buf[len]=0] is written after the characters [s]. *)
Lemma terminated_form (s buf1 : list Z) :
  firstn (List.length s) buf1 = s ->
  (List.length s < List.length buf1)%nat ->
  store (Z.of_nat (List.length s)) 0 buf1
  = Some (s ++ 0 :: skipn (S (List.length s)) buf1).
Proof.
  intros Hpre Hlen. rewrite store_ok by lia. rewrite Nat2Z.id, Hpre. reflexivity.
Qed.

Lemma without_cr_nonzero (l : list Z) :
  Forall (fun b => is_text b = true \/ b = 13) l ->
  Forall (fun c => c <> 0) (without_cr l).
Proof.
  induction 1 as [| b l Hb _ IH]; [constructor |].
  unfold without_cr. cbn [filter]. destruct Hb as [Hb | ->].
  - destruct (is_text_inv b Hb) as (Hrange & _ & H13).
    apply Z.eqb_neq in H13. rewrite H13. cbn [negb].
    constructor; [lia | exact IH].
  - cbn. exact IH.
Qed.

Lemma cstring_text (s junk : list Z) :
  Forall (fun c => c <> 0) s -> cstring (s ++ 0 :: junk) = Some s.
Proof.
  intros H. rewrite cstring_terminated, until_nul_nonzero by exact H. reflexivity.
Qed.

(** [readln] on a line that fits and ends in LF; the buffer it leaves does
    not depend on what follows the LF. *)
Lemma readln_line_form (sg : bool) (l buf : list Z) (maxlen : Z) :
  Forall (fun b => is_text b = true \/ b = 13) l ->
  maxlen <= Int.INT_MAX ->
  Z.of_nat (List.length (without_cr l)) < maxlen - 1 ->
  maxlen <= Z.of_nat (List.length buf) ->
  exists junk,
    List.length (without_cr l ++ 0 :: junk) = List.length buf /\
    forall rest,
      readln sg (l ++ 10 :: rest) buf maxlen = Some (true, rest, without_cr l ++ 0 :: junk).
Proof.
  intros Hl Hmax Hfit Hcap.
  destruct (readln_text sg l buf maxlen Hl Hmax Hfit Hcap) as (buf1 & Hlen1 & Hpre & Hrun).
  exists (skipn (S (List.length (without_cr l))) buf1). split.
  - rewrite length_app. cbn [List.length]. rewrite length_skipn. lia.
  - intros rest. rewrite Hrun.
    assert (Hwrap : Int.wrap (maxlen - 1) = maxlen - 1).
    { apply wrap_small. unfold Int.INT_MIN, Int.INT_MAX in *. lia. }
    rewrite loop_step by (rewrite Hwrap; lia).
    cbv zeta. rewrite to_char_small by lia. cbn [Z.ltb Z.eqb Z.compare Pos.eqb Pos.compare].
    cbn. rewrite terminated_form by (try exact Hpre; lia). reflexivity.
Qed.

(** X19: [readln] on a line of text that fits in [maxlen-2] characters and
    ends in LF returns true, leaves the file positioned after the LF, and
    leaves in [buf] the NUL-terminated line with every CR removed, wherever
    the CRs were. *)
Theorem readln_reads_a_line :
  forall (sg : bool) (l rest buf : list Z) (maxlen : Z),
    Forall (fun b => is_text b = true \/ b = 13) l ->
    maxlen <= Int.INT_MAX ->
    Z.of_nat (List.length (without_cr l)) < maxlen - 1 ->
    maxlen <= Z.of_nat (List.length buf) ->
    exists buf',
      readln sg (l ++ 10 :: rest) buf maxlen = Some (true, rest, buf') /\
      cstring buf' = Some (without_cr l) /\
      List.length buf' = List.length buf.
Proof.
  intros sg l rest buf maxlen Hl Hmax Hfit Hcap.
  destruct (readln_line_form sg l buf maxlen Hl Hmax Hfit Hcap) as (junk & Hlen & Hrun).
  eexists. split; [apply Hrun |]. split; [| exact Hlen].
  apply cstring_text, without_cr_nonzero, Hl.
Qed.

(** "a", CR, "b", LF, "c" into a buffer of 8. *)
Lemma readln_reads_a_line_witness :
  exists buf',
    readln false [97; 13; 98; 10; 99] (repeat 7 8) 8 = Some (true, [99], buf') /\
    cstring buf' = Some [97; 98].
Proof.
  assert (Hl : Forall (fun b => is_text b = true \/ b = 13) [97; 13; 98]).
  { text_line. }
  assert (Hmax : 8 <= Int.INT_MAX) by (vm_compute; discriminate).
  assert (Hfit : Z.of_nat (List.length (without_cr [97; 13; 98])) < 8 - 1) by reflexivity.
  assert (Hcap : 8 <= Z.of_nat (List.length (repeat 7 8))) by (vm_compute; discriminate).
  destruct (readln_reads_a_line false [97; 13; 98] [99] (repeat 7 8) 8 Hl Hmax Hfit Hcap)
    as (buf' & Hrun & Hstr & _).
  exists buf'. split; [exact Hrun | exact Hstr].
Defined.

(** X20: a last line that does not end in LF is read into [buf] like any
    other, but [readln] returns false for it: the caller is told the file
    had ended before the line. *)
Theorem readln_last_line_without_newline :
  forall (sg : bool) (l buf : list Z) (maxlen : Z),
    Forall (fun b => is_text b = true \/ b = 13) l ->
    maxlen <= Int.INT_MAX ->
    Z.of_nat (List.length (without_cr l)) < maxlen - 1 ->
    maxlen <= Z.of_nat (List.length buf) ->
    exists buf',
      readln sg l buf maxlen = Some (false, [], buf') /\
      cstring buf' = Some (without_cr l).
Proof.
  intros sg l buf maxlen Hl Hmax Hfit Hcap.
  destruct (readln_text sg l buf maxlen Hl Hmax Hfit Hcap) as (buf1 & Hlen1 & Hpre & Hrun).
  specialize (Hrun []). rewrite app_nil_r in Hrun.
  assert (Hwrap : Int.wrap (maxlen - 1) = maxlen - 1).
  { apply wrap_small. unfold Int.INT_MIN, Int.INT_MAX in *. lia. }
  cbn [readln_loop] in Hrun.
  destruct (Z.ltb_spec (Z.of_nat (List.length (without_cr l))) (Int.wrap (maxlen - 1)));
    [| lia].
  rewrite terminated_form in Hrun by (try exact Hpre; lia).
  eexists. split; [exact Hrun |].
  apply cstring_text, without_cr_nonzero, Hl.
Qed.

(** "TZ=-8" with no line end after it. *)
Lemma readln_last_line_without_newline_witness :
  exists buf',
    readln false [84; 90; 61; 45; 56] (repeat 0 128) 127 = Some (false, [], buf') /\
    cstring buf' = Some [84; 90; 61; 45; 56].
Proof.
  assert (Hl : Forall (fun b => is_text b = true \/ b = 13) [84; 90; 61; 45; 56]).
  { text_line. }
  assert (Hmax : 127 <= Int.INT_MAX) by (vm_compute; discriminate).
  assert (Hfit : Z.of_nat (List.length (without_cr [84; 90; 61; 45; 56])) < 127 - 1)
    by reflexivity.
  assert (Hcap : 127 <= Z.of_nat (List.length (repeat 0 128))) by (vm_compute; discriminate).
  exact (readln_last_line_without_newline false [84; 90; 61; 45; 56] (repeat 0 128) 127
           Hl Hmax Hfit Hcap).
Defined.

(** X21: a line of [maxlen-1] characters or more is cut: once [maxlen-1]
    characters are stored, [readln] returns true without having looked for
    the line end, and what follows in the file, the rest of the line
    included, is left for the next call. *)
Theorem readln_splits_long_lines :
  forall (sg : bool) (l : list Z) (b : Z) (rest buf : list Z) (maxlen : Z),
    Forall (fun b => is_text b = true \/ b = 13) l ->
    is_text b = true ->
    maxlen <= Int.INT_MAX ->
    Z.of_nat (List.length (without_cr l)) + 2 = maxlen ->
    maxlen <= Z.of_nat (List.length buf) ->
    exists buf',
      readln sg (l ++ b :: rest) buf maxlen = Some (true, rest, buf') /\
      cstring buf' = Some (without_cr l ++ [b]).
Proof.
  intros sg l b rest buf maxlen Hl Hb Hmax Hfull Hcap.
  destruct (readln_text sg l buf maxlen Hl Hmax ltac:(lia) Hcap)
    as (buf1 & Hlen1 & Hpre & Hrun).
  destruct (is_text_inv b Hb) as (Hrange & H10 & H13).
  assert (Hwrap : Int.wrap (maxlen - 1) = maxlen - 1).
  { apply wrap_small. unfold Int.INT_MIN, Int.INT_MAX in *. lia. }
  set (n := List.length (without_cr l)) in *.
  set (buf2 := firstn n buf1 ++ b :: skipn (S n) buf1).
  assert (Hpre2 : firstn (List.length (without_cr l ++ [b])) buf2 = without_cr l ++ [b]).
  { rewrite length_app. cbn [List.length]. fold n.
    replace (n + 1)%nat with (S n) by lia. subst buf2.
    rewrite stored_prefix by lia. rewrite Hpre. reflexivity. }
  assert (Hlen2 : List.length buf2 = List.length buf1).
  { subst buf2. apply stored_length. lia. }
  rewrite Hrun, loop_step by (rewrite Hwrap; lia).
  cbv zeta. rewrite to_char_small by lia.
  destruct (Z.ltb_spec b 0); [lia |].
  destruct (Z.eqb_spec b 13); [contradiction |].
  destruct (Z.eqb_spec b 10); [contradiction |].
  rewrite Z.mod_small by lia. rewrite store_ok by lia.
  rewrite Nat2Z.id. fold buf2.
  rewrite incr_small by (unfold Int.INT_MIN, Int.INT_MAX in *; lia).
  rewrite loop_full by (rewrite Hwrap; lia).
  replace (Z.of_nat n + 1) with (Z.of_nat (List.length (without_cr l ++ [b])))
    by (rewrite length_app; cbn [List.length]; fold n; lia).
  rewrite terminated_form by (try exact Hpre2; rewrite length_app; cbn [List.length]; fold n; lia).
  eexists. split; [reflexivity |].
  apply cstring_text. apply Forall_app. split.
  - apply without_cr_nonzero, Hl.
  - constructor; [lia | constructor].
Qed.

(** "abcdef" and LF read with [maxlen] 4: "abc" now, "def" later. *)
Lemma readln_splits_long_lines_witness :
  exists buf',
    readln false [97; 98; 99; 100; 101; 102; 10] (repeat 7 8) 4
    = Some (true, [100; 101; 102; 10], buf') /\
    cstring buf' = Some [97; 98; 99].
Proof.
  assert (Hl : Forall (fun b => is_text b = true \/ b = 13) [97; 98]).
  { text_line. }
  assert (Hmax : 4 <= Int.INT_MAX) by (vm_compute; discriminate).
  assert (Hcap : 4 <= Z.of_nat (List.length (repeat 7 8))) by (vm_compute; discriminate).
  exact (readln_splits_long_lines false [97; 98] 99 [100; 101; 102; 10] (repeat 7 8) 4
           Hl eq_refl Hmax eq_refl Hcap).
Defined.

(** X22: with [maxlen] at most 1 there is no room for a character:
    [readln] reads nothing from the file, stores the empty string and
    returns true, so a caller that loops until it returns false makes no
    progress. *)
Theorem readln_without_room :
  forall (sg : bool) (finp buf : list Z) (maxlen : Z),
    Int.INT_MIN < maxlen <= 1 ->
    (0 < List.length buf)%nat ->
    readln sg finp buf maxlen = Some (true, finp, 0 :: skipn 1 buf).
Proof.
  intros sg finp buf maxlen Hmax Hbuf.
  assert (Hwrap : Int.wrap (maxlen - 1) = maxlen - 1).
  { apply wrap_small. unfold Int.INT_MIN, Int.INT_MAX in *. lia. }
  unfold readln. rewrite store_ok by lia. cbn [Z.to_nat firstn app].
  rewrite loop_full by (rewrite Hwrap; lia).
  rewrite store_ok by (cbn [List.length]; lia). reflexivity.
Qed.

(** A buffer of one cell. *)
Lemma readln_without_room_witness :
  readln false [97; 10] [7] 1 = Some (true, [97; 10], [0]).
Proof.
  assert (Hmax : Int.INT_MIN < 1 <= 1) by (vm_compute; split; [reflexivity | discriminate]).
  assert (Hbuf : (0 < List.length [7])%nat) by (cbn; lia).
  exact (readln_without_room false [97; 10] [7] 1 Hmax Hbuf).
Defined.

(** *** What [readln] takes from the file *)

Lemma loop_takes (sg : bool) (finp : list Z) :
  forall (buf : list Z) (len maxlen len' : Z) (eof : bool) (finp' buf' : list Z),
    readln_loop sg finp buf len maxlen = Some (len', eof, finp', buf') ->
    exists taken,
      finp = taken ++ finp' /\
      (eof = false -> len < Int.wrap (maxlen - 1) -> taken <> []).
Proof.
  induction finp as [| b rest IH]; intros buf len maxlen len' eof finp' buf' Hrun.
  - cbn [readln_loop] in Hrun.
    destruct (Z.ltb_spec len (Int.wrap (maxlen - 1))) as [Hroom | Hfull];
      injection Hrun as <- <- <- <-.
    + exists []. split; [reflexivity | discriminate].
    + exists []. split; [reflexivity |]. intros _ H. lia.
  - destruct (Z.ltb_spec len (Int.wrap (maxlen - 1))) as [Hroom | Hfull].
    + rewrite loop_step in Hrun by exact Hroom. cbv zeta in Hrun.
      destruct (to_char sg b <? 0).
      { injection Hrun as <- <- <- <-. exists [b]. split; [reflexivity | discriminate]. }
      destruct (to_char sg b =? 13).
      { destruct (IH _ _ _ _ _ _ _ Hrun) as (taken & -> & _).
        exists (b :: taken). split; [reflexivity | discriminate]. }
      destruct (to_char sg b =? 10).
      { injection Hrun as <- <- <- <-. exists [b]. split; [reflexivity | discriminate]. }
      destruct (store len (to_char sg b mod 256) buf) as [buf1 |]; [| discriminate].
      destruct (IH _ _ _ _ _ _ _ Hrun) as (taken & -> & _).
      exists (b :: taken). split; [reflexivity | discriminate].
    + rewrite loop_full in Hrun by lia. injection Hrun as <- <- <- <-.
      exists []. split; [reflexivity |]. intros _ H. lia.
Qed.

Lemma loop_in_bounds (sg : bool) (finp : list Z) :
  forall (buf : list Z) (len maxlen : Z),
    Int.INT_MIN < maxlen <= Int.INT_MAX ->
    0 <= len < Z.of_nat (List.length buf) ->
    maxlen <= Z.of_nat (List.length buf) ->
    exists len' eof finp' buf',
      readln_loop sg finp buf len maxlen = Some (len', eof, finp', buf') /\
      List.length buf' = List.length buf /\
      0 <= len' < Z.of_nat (List.length buf).
Proof.
  induction finp as [| b rest IH]; intros buf len maxlen Hmax Hlen Hcap.
  - cbn [readln_loop]. destruct (len <? Int.wrap (maxlen - 1)); eauto 8.
  - assert (Hwrap : Int.wrap (maxlen - 1) = maxlen - 1).
    { apply wrap_small. unfold Int.INT_MIN, Int.INT_MAX in *. lia. }
    destruct (Z.ltb_spec len (Int.wrap (maxlen - 1))) as [Hroom | Hfull].
    + rewrite loop_step by exact Hroom. cbv zeta.
      destruct (to_char sg b <? 0); [eauto 8 |].
      destruct (to_char sg b =? 13); [apply IH; assumption |].
      destruct (to_char sg b =? 10); [eauto 8 |].
      rewrite store_ok by lia.
      rewrite incr_small by (unfold Int.INT_MIN, Int.INT_MAX in *; lia).
      set (buf1 := firstn _ _ ++ _ :: skipn _ _).
      assert (Hlen1 : List.length buf1 = List.length buf).
      { subst buf1. apply stored_length. lia. }
      destruct (IH buf1 (len + 1) maxlen Hmax ltac:(lia) ltac:(lia))
        as (len' & eof & finp' & buf' & Hrun & Hlen' & Hb).
      exists len', eof, finp', buf'. split; [exact Hrun |]. split; lia.
    + rewrite loop_full by lia. eauto 8.
Qed.

(** X23: [readln] stays inside [buf] and never reads backwards: when [buf]
    has at least one cell and at least [maxlen] cells, whatever bytes the
    file holds and whether [char] is signed or not, the call returns, [buf]
    keeps its size, what is left of the file is an end piece of what there
    was, and a call that returns true with [maxlen] at least 2 has taken at
    least one byte. *)
Theorem readln_in_bounds :
  forall (sg : bool) (finp buf : list Z) (maxlen : Z),
    Int.INT_MIN < maxlen <= Int.INT_MAX ->
    (0 < List.length buf)%nat ->
    maxlen <= Z.of_nat (List.length buf) ->
    exists (r : bool) (taken finp' buf' : list Z),
      readln sg finp buf maxlen = Some (r, finp', buf') /\
      List.length buf' = List.length buf /\
      finp = taken ++ finp' /\
      (r = true -> 2 <= maxlen -> taken <> []).
Proof.
  intros sg finp buf maxlen Hmax Hbuf Hcap.
  unfold readln. rewrite store_ok by lia.
  set (buf0 := firstn _ _ ++ _ :: skipn _ _).
  assert (Hlen0 : List.length buf0 = List.length buf).
  { subst buf0. apply stored_length. exact Hbuf. }
  destruct (loop_in_bounds sg finp buf0 0 maxlen Hmax ltac:(lia) ltac:(lia))
    as (len' & eof & finp' & buf' & Hrun & Hlen' & Hb).
  rewrite Hrun. rewrite store_ok by lia.
  destruct (loop_takes sg finp _ _ _ _ _ _ _ Hrun) as (taken & Htaken & Hsome).
  exists (negb eof), taken, finp'. eexists. split; [reflexivity |].
  split; [rewrite stored_length; lia |]. split; [exact Htaken |].
  intros Hr Hmax2. apply Hsome.
  - destruct eof; [discriminate | reflexivity].
  - rewrite wrap_small by (unfold Int.INT_MIN, Int.INT_MAX in *; lia). lia.
Qed.

(** Bytes with the high bit set, [char] signed. *)
Lemma readln_in_bounds_witness :
  exists (r : bool) (taken finp' buf' : list Z),
    readln true [200; 97; 10] (repeat 7 8) 8 = Some (r, finp', buf') /\
    List.length buf' = 8%nat /\ [200; 97; 10] = taken ++ finp'.
Proof.
  assert (Hmax : Int.INT_MIN < 8 <= Int.INT_MAX)
    by (vm_compute; split; [reflexivity | discriminate]).
  assert (Hbuf : (0 < List.length (repeat 7 8))%nat) by (cbn; lia).
  assert (Hcap : 8 <= Z.of_nat (List.length (repeat 7 8))) by (vm_compute; discriminate).
  destruct (readln_in_bounds true [200; 97; 10] (repeat 7 8) 8 Hmax Hbuf Hcap)
    as (r & taken & finp' & buf' & Hrun & Hlen & Htaken & _).
  exists r, taken, finp', buf'. auto.
Defined.

(** *** The scan of the config file *)

Lemma text_line_inv (l : list Z) :
  is_text_line l = true ->
  Forall (fun b => is_text b = true) l /\ (List.length l <= 125)%nat.
Proof.
  unfold is_text_line. intros H. apply andb_true_iff in H. destruct H as [H1 H2].
  split; [| apply Nat.leb_le; exact H2].
  apply Forall_forall. apply forallb_forall. exact H1.
Qed.

Lemma text_without_cr (l : list Z) :
  Forall (fun b => is_text b = true) l -> without_cr l = l.
Proof.
  induction 1 as [| b l Hb _ IH]; [reflexivity |].
  destruct (is_text_inv b Hb) as (_ & _ & H13). apply Z.eqb_neq in H13.
  unfold without_cr in *. cbn [filter]. rewrite H13. cbn [negb]. rewrite IH. reflexivity.
Qed.

Lemma text_nonzero (l : list Z) :
  Forall (fun b => is_text b = true) l -> Forall (fun c => c <> 0) l.
Proof.
  apply Forall_impl. intros b Hb. destruct (is_text_inv b Hb). lia.
Qed.

Lemma text_or_cr (l : list Z) :
  Forall (fun b => is_text b = true) l ->
  Forall (fun b => is_text b = true \/ b = 13) l.
Proof. apply Forall_impl. intros b Hb. left. exact Hb. Qed.

(** [strncmp(buf, key, strlen(key))] is 0 exactly when the line in [buf]
    begins with the key. *)
Lemma strncmp_prefix (k : list Z) :
  Forall (fun c => c <> 0) k ->
  forall l junk : list Z,
    Forall (fun c => c <> 0) l ->
    exists d,
      strncmp (l ++ 0 :: junk) (k ++ [0]) (List.length k) = Some d /\
      (d =? 0) = is_prefix k l.
Proof.
  induction 1 as [| a k Ha _ IH]; intros l junk Hl.
  - exists 0. split; reflexivity.
  - destruct Hl as [| c l Hc Hl].
    + cbn [app List.length strncmp is_prefix].
      destruct (Z.eqb_spec 0 a) as [E | E]; [congruence |]. cbn [negb].
      eexists. split; [reflexivity |]. apply Z.eqb_neq. lia.
    + cbn [app List.length strncmp is_prefix].
      destruct (Z.eqb_spec c a) as [E | E].
      * subst c. cbn [negb]. rewrite Z.eqb_refl. cbn [andb].
        destruct (Z.eqb_spec a 0); [contradiction |]. apply IH. exact Hl.
      * cbn [negb]. destruct (Z.eqb_spec a c) as [E' | E']; [congruence |].
        eexists. split; [reflexivity |]. apply Z.eqb_neq. lia.
Qed.

Lemma is_prefix_length (k : list Z) :
  forall l, is_prefix k l = true -> (List.length k <= List.length l)%nat.
Proof.
  induction k as [| a k IH]; intros l H; [cbn; lia |].
  destruct l as [| c l]; [discriminate |].
  cbn in H. apply andb_true_iff in H. destruct H as [_ H].
  cbn [List.length]. apply IH in H. lia.
Qed.

(** [strncpy] from a string: it reads neither past the NUL nor past
    [n] cells. *)
Lemma strncpy_cells_terminated (n : nat) :
  forall v junk : list Z,
    Forall (fun c => c <> 0) v ->
    strncpy_cells (v ++ 0 :: junk) n
    = Some (firstn n v ++ repeat 0 (n - List.length v)).
Proof.
  induction n as [| n IH]; intros v junk Hv; [reflexivity |].
  destruct Hv as [| c v Hc Hv].
  - reflexivity.
  - cbn [app strncpy_cells]. destruct (Z.eqb_spec c 0); [contradiction |].
    rewrite IH by exact Hv. reflexivity.
Qed.

Lemma strncpy_terminated (outbuf v junk : list Z) (n : nat) :
  Forall (fun c => c <> 0) v ->
  strncpy outbuf (v ++ 0 :: junk) n
  = if (n <=? List.length outbuf)%nat then Some (copied outbuf v n) else None.
Proof.
  intros Hv. unfold strncpy, copied. rewrite strncpy_cells_terminated by exact Hv.
  destruct (n <=? List.length outbuf)%nat; [| reflexivity].
  rewrite <- app_assoc. reflexivity.
Qed.

Lemma Forall_skipn_nonzero (n : nat) (l : list Z) :
  Forall (fun c => c <> 0) l -> Forall (fun c => c <> 0) (skipn n l).
Proof.
  intros H. rewrite <- (firstn_skipn n l) in H. apply Forall_app in H. apply H.
Qed.

(** [readln] on a last line without LF, for the scan. *)
Lemma readln_eof_form (sg : bool) (l buf : list Z) (maxlen : Z) :
  Forall (fun b => is_text b = true \/ b = 13) l ->
  maxlen <= Int.INT_MAX ->
  Z.of_nat (List.length (without_cr l)) < maxlen - 1 ->
  maxlen <= Z.of_nat (List.length buf) ->
  exists buf', readln sg l buf maxlen = Some (false, [], buf').
Proof.
  intros Hl Hmax Hfit Hcap.
  destruct (readln_text sg l buf maxlen Hl Hmax Hfit Hcap) as (buf1 & Hlen1 & Hpre & Hrun).
  specialize (Hrun []). rewrite app_nil_r in Hrun.
  assert (Hwrap : Int.wrap (maxlen - 1) = maxlen - 1).
  { apply wrap_small. unfold Int.INT_MIN, Int.INT_MAX in *. lia. }
  cbn [readln_loop] in Hrun.
  destruct (Z.ltb_spec (Z.of_nat (List.length (without_cr l))) (Int.wrap (maxlen - 1)));
    [| lia].
  rewrite terminated_form in Hrun by (try exact Hpre; lia).
  eexists. exact Hrun.
Qed.

(** The loop of [readKey] over a file made of text lines, each ended by LF,
    and a last piece [last] without LF: the result is decided by the first
    line that begins with the key; [last] is never compared. *)
Lemma scan_lines (sg : bool) (k outbuf last : list Z) (maxlen : Z) :
  Forall (fun c => c <> 0) k ->
  is_text_line last = true ->
  forall lines : list (list Z),
    forallb is_text_line lines = true ->
    forall (rounds : nat) (buf : list Z),
      (List.length (file_of_lines lines ++ last) < rounds)%nat ->
      List.length buf = 128%nat ->
      readKey_loop sg rounds (file_of_lines lines ++ last) buf (k ++ [0]) outbuf
                   (List.length k) maxlen
      = match lookup k lines with
        | None => Returns (false, outbuf)
        | Some v =>
            if (size_t_of_int maxlen <=? List.length outbuf)%nat
            then Returns (true, copied outbuf v (size_t_of_int maxlen))
            else Undefined
        end.
Proof.
  intros Hk Hlast. destruct (text_line_inv last Hlast) as (Hlt & Hll).
  assert (Hmax : 127 <= Int.INT_MAX) by (vm_compute; discriminate).
  induction lines as [| l lines IH]; intros Hlines rounds buf Hrounds Hbuf;
    (destruct rounds as [| rounds]; [lia |]).
  - cbn [file_of_lines flat_map app lookup readKey_loop].
    destruct (readln_eof_form sg last buf 127 (text_or_cr last Hlt) Hmax) as (buf' & Hrun).
    + rewrite text_without_cr by exact Hlt. lia.
    + lia.
    + rewrite Hrun. reflexivity.
  - cbn [forallb] in Hlines. apply andb_true_iff in Hlines. destruct Hlines as [Hl Hlines].
    destruct (text_line_inv l Hl) as (Hltext & Hllen).
    assert (Hfile : file_of_lines (l :: lines) ++ last
                    = l ++ 10 :: (file_of_lines lines ++ last)).
    { cbn [file_of_lines flat_map]. rewrite <- !app_assoc. reflexivity. }
    rewrite Hfile in *. cbn [readKey_loop lookup].
    destruct (readln_line_form sg l buf 127 (text_or_cr l Hltext) Hmax) as (junk & Hlen & Hrun).
    + rewrite text_without_cr by exact Hltext. lia.
    + lia.
    + rewrite Hrun. rewrite text_without_cr in * by exact Hltext.
      destruct (strncmp_prefix k Hk l junk (text_nonzero l Hltext)) as (d & Hcmp & Hd).
      rewrite Hcmp, Hd. destruct (is_prefix k l) eqn:Hpre.
      * pose proof (is_prefix_length k l Hpre) as Hkl.
        rewrite skipn_app. replace (List.length k - List.length l)%nat with 0%nat by lia.
        cbn [skipn]. rewrite strncpy_terminated
          by (apply Forall_skipn_nonzero, text_nonzero, Hltext).
        destruct (size_t_of_int maxlen <=? List.length outbuf)%nat; reflexivity.
      * apply IH; [exact Hlines | | lia].
        rewrite length_app in Hrounds. cbn [List.length] in Hrounds. lia.
Qed.

Lemma cstring_no_nul (s : list Z) : Forall (fun c => c <> 0) s -> cstring s = None.
Proof.
  induction 1 as [| c s Hc _ IH]; [reflexivity |].
  cbn. destruct (Z.eqb_spec c 0); [contradiction |]. rewrite IH. reflexivity.
Qed.

(** [readKey] on a file made of text lines and a last piece without LF. *)
Lemma readKey_on_lines (sg : bool) (fileSystem_open : list Z -> option (list Z))
    (configFn name k outbuf : list Z) (maxlen : Z) (lines : list (list Z)) (last : list Z) :
  cstring configFn = Some name ->
  fileSystem_open name = Some (file_of_lines lines ++ last) ->
  Forall (fun c => c <> 0) k ->
  forallb is_text_line lines = true ->
  is_text_line last = true ->
  (0 < List.length outbuf)%nat ->
  readKey sg fileSystem_open configFn (k ++ [0]) outbuf maxlen
  = match lookup k lines with
    | None =>
        Returns (false, 0 :: skipn 1 outbuf,
                 [Serial_println_text "Unable to find key"; Serial_println k])
    | Some v =>
        if (size_t_of_int maxlen <=? List.length (0%Z :: skipn 1 outbuf))%nat
        then match cstring (copied (0 :: skipn 1 outbuf) v (size_t_of_int maxlen)) with
             | Some value =>
                 Returns (true, copied (0 :: skipn 1 outbuf) v (size_t_of_int maxlen),
                          [Serial_print_text "Found key "; Serial_print k;
                           Serial_println value])
             | None => Undefined
             end
        else Undefined
    end.
Proof.
  intros Hname Hopen Hk Hlines Hlast Hout.
  unfold readKey. rewrite store_ok by lia. cbn [Z.to_nat firstn app].
  rewrite Hname, Hopen, (cstring_text k [] Hk).
  rewrite (scan_lines sg k (0 :: skipn 1 outbuf) last maxlen Hk Hlast lines Hlines)
    by (try lia; apply repeat_length).
  destruct (lookup k lines) as [v |]; [| reflexivity].
  destruct (size_t_of_int maxlen <=? List.length (0%Z :: skipn 1 outbuf))%nat; reflexivity.
Qed.

Lemma lookup_text (k : list Z) (lines : list (list Z)) (v : list Z) :
  forallb is_text_line lines = true -> lookup k lines = Some v ->
  Forall (fun c => c <> 0) v.
Proof.
  induction lines as [| l lines IH]; intros Hlines Hv; [discriminate |].
  cbn [forallb] in Hlines. apply andb_true_iff in Hlines. destruct Hlines as [Hl Hlines].
  cbn [lookup] in Hv. destruct (is_prefix k l).
  - injection Hv as <-. apply Forall_skipn_nonzero, text_nonzero.
    apply (text_line_inv l Hl).
  - apply IH; assumption.
Qed.

Lemma size_t_small (z : Z) : 0 <= z <= Int.INT_MAX -> size_t_of_int z = Z.to_nat z.
Proof.
  unfold size_t_of_int, Int.INT_MAX. intros H. rewrite Z.mod_small by lia. reflexivity.
Qed.

(** X24: on a config file made of text lines of at most 125 characters,
    each ended by LF, [readKey] returns true for a key that begins one of the
    lines, and leaves in [outbuf] the NUL-terminated rest of the first such
    line, provided that rest is shorter than [maxlen] and [outbuf] has
    [maxlen] cells; it prints "Found key ", the key and the value. *)
Theorem readKey_finds_value :
  forall (sg : bool) (fileSystem_open : list Z -> option (list Z))
         (configFn name k outbuf : list Z) (maxlen : Z)
         (lines : list (list Z)) (v : list Z),
    cstring configFn = Some name ->
    fileSystem_open name = Some (file_of_lines lines) ->
    Forall (fun c => c <> 0) k ->
    forallb is_text_line lines = true ->
    lookup k lines = Some v ->
    Z.of_nat (List.length v) < maxlen <= Z.of_nat (List.length outbuf) ->
    maxlen <= Int.INT_MAX ->
    exists outbuf',
      readKey sg fileSystem_open configFn (k ++ [0]) outbuf maxlen
      = Returns (true, outbuf',
                 [Serial_print_text "Found key "; Serial_print k; Serial_println v]) /\
      cstring outbuf' = Some v /\
      List.length outbuf' = List.length outbuf.
Proof.
  intros sg fs configFn name k outbuf maxlen lines v Hname Hopen Hk Hlines Hv Hfit Hmax.
  rewrite <- (app_nil_r (file_of_lines lines)) in Hopen.
  rewrite (readKey_on_lines sg fs configFn name k outbuf maxlen lines [] Hname Hopen Hk Hlines)
    by (try reflexivity; lia).
  rewrite Hv, size_t_small by lia.
  assert (Hlen0 : List.length (0 :: skipn 1 outbuf) = List.length outbuf).
  { cbn [List.length]. rewrite length_skipn. lia. }
  rewrite Hlen0. destruct (Nat.leb_spec (Z.to_nat maxlen) (List.length outbuf)); [| lia].
  pose proof (lookup_text k lines v Hlines Hv) as Hvtext.
  assert (Hcopied : copied (0 :: skipn 1 outbuf) v (Z.to_nat maxlen)
                    = v ++ 0 :: (repeat 0 (Z.to_nat maxlen - S (List.length v))
                                 ++ skipn (Z.to_nat maxlen) (0 :: skipn 1 outbuf))).
  { unfold copied. rewrite firstn_all2 by lia.
    replace (Z.to_nat maxlen - List.length v)%nat
      with (S (Z.to_nat maxlen - S (List.length v))) by lia.
    reflexivity. }
  rewrite Hcopied, (cstring_text v _ Hvtext).
  eexists. split; [reflexivity |]. split; [apply cstring_text; exact Hvtext |].
  rewrite <- Hcopied. unfold copied.
  rewrite !length_app, length_firstn, repeat_length, length_skipn. lia.
Qed.

(** The file "S=a", LF, "P=bc", LF and the key "P=". *)
Lemma readKey_finds_value_witness :
  exists outbuf',
    readKey false (fun _ => Some [83; 61; 97; 10; 80; 61; 98; 99; 10])
            [99; 0] [80; 61; 0] (repeat 7 8) 8
    = Returns (true, outbuf',
               [Serial_print_text "Found key "; Serial_print [80; 61];
                Serial_println [98; 99]]) /\
    cstring outbuf' = Some [98; 99].
Proof.
  assert (Hk : Forall (fun c => c <> 0) [80; 61]) by (repeat constructor; discriminate).
  assert (Hfit : Z.of_nat (List.length [98; 99]) < 8 <= Z.of_nat (List.length (repeat 7 8)))
    by (vm_compute; split; [reflexivity | discriminate]).
  assert (Hmax : 8 <= Int.INT_MAX) by (vm_compute; discriminate).
  destruct (readKey_finds_value false (fun _ => Some [83; 61; 97; 10; 80; 61; 98; 99; 10])
              [99; 0] [99] [80; 61] (repeat 7 8) 8 [[83; 61; 97]; [80; 61; 98; 99]] [98; 99]
              eq_refl eq_refl Hk eq_refl eq_refl Hfit Hmax)
    as (outbuf' & Hrun & Hstr & _).
  exists outbuf'. split; [exact Hrun | exact Hstr].
Defined.

(** X25: on a config file made of text lines of at most 125 characters,
    each ended by LF, and possibly a last piece of text of at most 125
    characters without LF: when none of the LF-terminated lines begins with
    the key, [readKey] returns false, leaves the empty string in [outbuf] and
    prints "Unable to find key" and the key; this is so even when the text
    after the last LF begins with the key: a last line without LF is never
    compared. *)
Theorem readKey_key_absent :
  forall (sg : bool) (fileSystem_open : list Z -> option (list Z))
         (configFn name k outbuf : list Z) (maxlen : Z)
         (lines : list (list Z)) (last : list Z),
    cstring configFn = Some name ->
    fileSystem_open name = Some (file_of_lines lines ++ last) ->
    Forall (fun c => c <> 0) k ->
    forallb is_text_line lines = true ->
    is_text_line last = true ->
    (0 < List.length outbuf)%nat ->
    lookup k lines = None ->
    readKey sg fileSystem_open configFn (k ++ [0]) outbuf maxlen
    = Returns (false, 0 :: skipn 1 outbuf,
               [Serial_println_text "Unable to find key"; Serial_println k]).
Proof.
  intros sg fs configFn name k outbuf maxlen lines last
         Hname Hopen Hk Hlines Hlast Hout Hnone.
  rewrite (readKey_on_lines sg fs configFn name k outbuf maxlen lines last
             Hname Hopen Hk Hlines Hlast Hout).
  rewrite Hnone. reflexivity.
Qed.

(** The file "S=a", LF, "T=8" without LF, and the key "T=". *)
Lemma readKey_key_absent_witness :
  readKey false (fun _ => Some [83; 61; 97; 10; 84; 61; 56])
          [99; 0] [84; 61; 0] (repeat 7 8) 8
  = Returns (false, 0 :: repeat 7 7,
             [Serial_println_text "Unable to find key"; Serial_println [84; 61]]).
Proof.
  assert (Hk : Forall (fun c => c <> 0) [84; 61]) by (repeat constructor; discriminate).
  assert (Hout : (0 < List.length (repeat 7 8))%nat) by (cbn; lia).
  exact (readKey_key_absent false (fun _ => Some [83; 61; 97; 10; 84; 61; 56])
           [99; 0] [99] [84; 61] (repeat 7 8) 8 [[83; 61; 97]] [84; 61; 56]
           eq_refl eq_refl Hk eq_refl eq_refl Hout eq_refl).
Defined.

(** X26: on a config file made of text lines of at most 125 characters,
    each ended by LF: when the rest of the first line that begins with the
    key has [maxlen] characters or more and [maxlen] is the size of
    [outbuf], [strncpy] fills [outbuf] without a NUL, and the
    [Serial.println(outbuf)] that follows reads past the end of the array:
    the behaviour of [readKey] is undefined. *)
Theorem readKey_value_too_long :
  forall (sg : bool) (fileSystem_open : list Z -> option (list Z))
         (configFn name k outbuf : list Z) (maxlen : Z)
         (lines : list (list Z)) (v : list Z),
    cstring configFn = Some name ->
    fileSystem_open name = Some (file_of_lines lines) ->
    Forall (fun c => c <> 0) k ->
    forallb is_text_line lines = true ->
    lookup k lines = Some v ->
    (0 < List.length outbuf)%nat ->
    maxlen = Z.of_nat (List.length outbuf) ->
    maxlen <= Int.INT_MAX ->
    maxlen <= Z.of_nat (List.length v) ->
    readKey sg fileSystem_open configFn (k ++ [0]) outbuf maxlen = Undefined.
Proof.
  intros sg fs configFn name k outbuf maxlen lines v
         Hname Hopen Hk Hlines Hv Hout Hsize Hmax Hlong.
  rewrite <- (app_nil_r (file_of_lines lines)) in Hopen.
  rewrite (readKey_on_lines sg fs configFn name k outbuf maxlen lines [] Hname Hopen Hk Hlines)
    by (try reflexivity; lia).
  rewrite Hv, size_t_small by lia.
  assert (Hlen0 : List.length (0 :: skipn 1 outbuf) = List.length outbuf).
  { cbn [List.length]. rewrite length_skipn. lia. }
  rewrite Hlen0. destruct (Nat.leb_spec (Z.to_nat maxlen) (List.length outbuf)); [| lia].
  pose proof (lookup_text k lines v Hlines Hv) as Hvtext.
  assert (Hcopied : copied (0 :: skipn 1 outbuf) v (Z.to_nat maxlen)
                    = firstn (Z.to_nat maxlen) v).
  { unfold copied. replace (Z.to_nat maxlen - List.length v)%nat with 0%nat by lia.
    rewrite skipn_all2 by lia. cbn [repeat app]. apply app_nil_r. }
  rewrite Hcopied, cstring_no_nul; [reflexivity |].
  rewrite <- (firstn_skipn (Z.to_nat maxlen) v) in Hvtext.
  apply Forall_app in Hvtext. apply Hvtext.
Qed.

(** The value "bcde" for an [outbuf] of 4 cells. *)
Lemma readKey_value_too_long_witness :
  readKey false (fun _ => Some [80; 61; 98; 99; 100; 101; 10])
          [99; 0] [80; 61; 0] (repeat 7 4) 4
  = Undefined.
Proof.
  assert (Hk : Forall (fun c => c <> 0) [80; 61]) by (repeat constructor; discriminate).
  assert (Hout : (0 < List.length (repeat 7 4))%nat) by (cbn; lia).
  assert (Hmax : 4 <= Int.INT_MAX) by (vm_compute; discriminate).
  assert (Hlong : 4 <= Z.of_nat (List.length [98; 99; 100; 101]))
    by (vm_compute; discriminate).
  exact (readKey_value_too_long false (fun _ => Some [80; 61; 98; 99; 100; 101; 10])
           [99; 0] [99] [80; 61] (repeat 7 4) 4 [[80; 61; 98; 99; 100; 101]]
           [98; 99; 100; 101] eq_refl eq_refl Hk eq_refl eq_refl Hout eq_refl Hmax Hlong).
Defined.

(** X27: when the file cannot be opened, [readKey] returns false, leaves
    the empty string in [outbuf] and prints "Unable to read config file -
    readKey"; it does not look at the key. *)
Theorem readKey_file_missing :
  forall (sg : bool) (fileSystem_open : list Z -> option (list Z))
         (configFn name key outbuf : list Z) (maxlen : Z),
    cstring configFn = Some name ->
    fileSystem_open name = None ->
    (0 < List.length outbuf)%nat ->
    readKey sg fileSystem_open configFn key outbuf maxlen
    = Returns (false, 0 :: skipn 1 outbuf,
               [Serial_println_text "Unable to read config file - readKey"]).
Proof.
  intros sg fs configFn name key outbuf maxlen Hname Hopen Hout.
  unfold readKey. rewrite store_ok by lia. cbn [Z.to_nat firstn app].
  rewrite Hname, Hopen. reflexivity.
Qed.

(** No file at all. *)
Lemma readKey_file_missing_witness :
  readKey false (fun _ => None) [99; 0] [80; 61; 0] [7; 7; 7] 3
  = Returns (false, [0; 7; 7],
             [Serial_println_text "Unable to read config file - readKey"]).
Proof.
  assert (Hout : (0 < List.length [7; 7; 7])%nat) by (cbn; lia).
  exact (readKey_file_missing false (fun _ => None) [99; 0] [99] [80; 61; 0]
           [7; 7; 7] 3 eq_refl eq_refl Hout).
Defined.

Lemma readln_true_takes (sg : bool) (finp buf finp' buf' : list Z) :
  readln sg finp buf 127 = Some (true, finp', buf') ->
  (List.length finp' < List.length finp)%nat.
Proof.
  unfold readln. intros H.
  destruct (store 0 0 buf) as [buf0 |]; [| discriminate].
  destruct (readln_loop sg finp buf0 0 127) as [[[[len eof] rest] buf1] |] eqn:Hrun;
    [| discriminate].
  destruct (store len 0 buf1) as [buf2 |]; [| discriminate].
  injection H as Heof <- <-. destruct eof; [discriminate |].
  destruct (loop_takes sg finp _ _ _ _ _ _ _ Hrun) as (taken & -> & Hsome).
  assert (taken <> []) as Hne.
  { apply Hsome; [reflexivity |]. vm_compute. reflexivity. }
  rewrite length_app. destruct taken; [contradiction | cbn [List.length]; lia].
Qed.

Lemma scan_finishes (sg : bool) (rounds : nat) :
  forall (finp buf key outbuf : list Z) (n : nat) (maxlen : Z),
    (List.length finp < rounds)%nat ->
    readKey_loop sg rounds finp buf key outbuf n maxlen <> Unfinished.
Proof.
  induction rounds as [| rounds IH]; intros finp buf key outbuf n maxlen Hrounds; [lia |].
  cbn [readKey_loop].
  destruct (readln sg finp buf 127) as [[[r finp'] buf'] |] eqn:Hrun; [| discriminate].
  destruct r; [| discriminate].
  destruct (strncmp buf' key n) as [d |]; [| discriminate].
  destruct (d =? 0).
  - destruct (strncpy outbuf (skipn n buf') (size_t_of_int maxlen)); discriminate.
  - apply IH. pose proof (readln_true_takes sg finp buf finp' buf' Hrun). lia.
Qed.

(** X28: the loop of [readKey] ends on every file: each [readln] that
    returns true has taken at least one byte, so a file of [n] bytes is
    scanned in at most [n]+1 rounds. *)
Theorem readKey_terminates :
  forall (sg : bool) (fileSystem_open : list Z -> option (list Z))
         (configFn key outbuf : list Z) (maxlen : Z),
    readKey sg fileSystem_open configFn key outbuf maxlen <> Unfinished.
Proof.
  intros sg fs configFn key outbuf maxlen. unfold readKey.
  destruct (store 0 0 outbuf) as [outbuf0 |]; [| discriminate].
  destruct (cstring configFn) as [name |]; [| discriminate].
  destruct (fs name) as [content |]; [| discriminate].
  destruct (cstring key) as [k |]; [| discriminate].
  pose proof (scan_finishes sg (S (List.length content)) content (repeat 0 128) key
                outbuf0 (List.length k) maxlen (Nat.lt_succ_diag_r _)) as Hfin.
  destruct (readKey_loop sg (S (List.length content)) content (repeat 0 128) key
              outbuf0 (List.length k) maxlen) as [[r outbuf'] | |].
  - destruct r; [destruct (cstring outbuf') |]; discriminate.
  - discriminate.
  - contradiction.
Qed.

End FileSystemSpec.
